(** * ailh web console: page controllers of the trading-strategy UI

    A shallow embedding of the three browser-side controllers

    - [src/app/static/js/dashboard.js]       (module [Dashboard]),
    - [src/app/static/js/api_management.js]  (module [ApiManagement]),
    - [src/app/static/js/add_strategy.js]    (module [AddStrategy]),

    together with the fragment of the JavaScript runtime they rely on
    (module [Js]): IEEE 754 binary64 numbers, [Number.prototype.toFixed],
    [parseFloat], [String.prototype.substring], truthiness, and the data
    model of [JSON.stringify].

    Strings are sequences of 8-bit characters; a JavaScript object used as
    a dictionary is a finite map from property names to values. *)

From Stdlib Require Import ZArith NArith Bool Ascii String List Lia.
From Stdlib Require Import DecimalString Floats.SpecFloat.
From stdpp Require Import base option gmap strings.

Local Open Scope string_scope.
Local Open Scope Z_scope.

(* ===================================================================== *)
(** * The JavaScript runtime fragment                                     *)
(* ===================================================================== *)

Module Js.

(** ** Numbers: IEEE 754 binary64, as the library's [spec_float] *)

Definition number : Type := spec_float.

Definition prec : Z := 53.
Definition emax : Z := 1024.

Definition NaN : number := S754_nan.
Definition pos_zero : number := S754_zero false.
Definition neg_zero : number := S754_zero true.
Definition pos_infinity : number := S754_infinity false.

Definition mul : number -> number -> number := SFmul prec emax.
Definition sub : number -> number -> number := SFsub prec emax.
Definition div : number -> number -> number := SFdiv prec emax.

(** [x < y], [x == y] on numbers; both are false when an operand is NaN. *)
Definition ltb : number -> number -> bool := SFltb.
Definition eqb : number -> number -> bool := SFeqb.
(** [x >= y] on numbers. *)
Definition geb (x y : number) : bool := SFleb y x.

(** The number an integer literal denotes. *)
Definition of_Z (z : Z) : number := binary_normalize prec emax z 0 false.

(** The number nearest to [m * 10^e] ([m > 0]), with the sign [neg]:
    the value of a decimal literal. *)
Definition of_decimal (neg : bool) (m : positive) (e : Z) : number :=
  match e with
  | Zneg k =>
      let '(q, e', l) := SFdiv_core_binary prec emax (Zpos m) 0 (Zpos (10 ^ k)) 0 in
      binary_round_aux prec emax neg q e' l
  | _ => binary_round prec emax neg (m * Z.to_pos (10 ^ e)) 0
  end.

Definition is_finite (x : number) : bool :=
  match x with
  | S754_zero _ | S754_finite _ _ _ => true
  | _ => false
  end.

(** ** Decimal digits *)

Definition digits_of_N (n : N) : string := NilZero.string_of_uint (N.to_uint n).

Fixpoint zeros (k : nat) : string :=
  match k with
  | O => EmptyString
  | S k' => String "0" (zeros k')
  end.

(** ** [Number::toString] for finite values of magnitude at least [10^21]

    Such a value [m * 2^e] is an integer.  The digits are those of the
    shortest decimal that rounds back to the value, the closest one to it
    among these, printed in exponent form. *)

Section Shortest.
Variables (X lower upper : Z) (inclusive : bool).

Definition rounds_back (v : Z) : bool :=
  if inclusive then (lower <=? v) && (v <=? upper)
  else (lower <? v) && (v <? upper).

(** The decimal [s * 10^p] with the largest [p] that rounds back. *)
Fixpoint shortest (p : nat) : Z * nat :=
  let q := 10 ^ Z.of_nat p in
  let lo := X / q * q in
  let hi := lo + q in
  let found :=
    match rounds_back lo, rounds_back hi with
    | true, true =>
        match (X - lo) ?= (hi - X) with
        | Lt => Some lo
        | Gt => Some hi
        | Eq => Some (if Z.even (lo / q) then lo else hi)
        end
    | true, false => Some lo
    | false, true => Some hi
    | false, false => None
    end in
  match found, p with
  | Some v, _ => (v / q, p)
  | None, O => (X, O)
  | None, S p' => shortest p'
  end.
End Shortest.

Definition to_string_large (m : positive) (e : Z) : string :=
  let X := Zpos m * 2 ^ e in
  let half := 2 ^ (e - 1) in
  let lower := if (Zpos m =? 2 ^ (prec - 1)) then X - 2 ^ (e - 2) else X - half in
  let digits := String.length (digits_of_N (Z.to_N X)) in
  let '(s, p) := shortest X lower (X + half) (Z.even (Zpos m)) digits in
  let d := digits_of_N (Z.to_N s) in
  let n := (String.length d + p)%nat in
  let expo := "e+" ++ digits_of_N (N.of_nat (n - 1)) in
  match d with
  | String c EmptyString => String c expo
  | String c rest => String c ("." ++ rest ++ expo)
  | EmptyString => expo
  end.

(** ** [Number.prototype.toFixed(f)] *)

(** The integer [n] for which [n / 10^f] is closest to [m * 2^e], the
    larger one of two. *)
Definition round_scaled (f : nat) (m : positive) (e : Z) : Z :=
  let t := Zpos m * 10 ^ Z.of_nat f in
  if 0 <=? e then t * 2 ^ e
  else (2 * t + 2 ^ (- e)) / 2 ^ (1 - e).

Definition fixed_digits (f : nat) (n : Z) : string :=
  let m := digits_of_N (Z.to_N n) in
  match f with
  | O => m
  | _ =>
      let m := zeros (S f - String.length m) ++ m in
      let k := String.length m in
      substring 0 (k - f) m ++ "." ++ substring (k - f) f m
  end.

Definition at_least_1e21 (m : positive) (e : Z) : bool :=
  if 0 <=? e then 10 ^ 21 <=? Zpos m * 2 ^ e
  else 10 ^ 21 * 2 ^ (- e) <=? Zpos m.

Definition toFixed (f : nat) (x : number) : string :=
  match x with
  | S754_nan => "NaN"
  | S754_infinity false => "Infinity"
  | S754_infinity true => "-Infinity"
  | S754_zero _ => fixed_digits f 0
  | S754_finite s m e =>
      (if s then "-" else EmptyString) ++
      (if at_least_1e21 m e then to_string_large m e
       else fixed_digits f (round_scaled f m e))
  end.

(** ** [parseFloat(string)]

    Leading white space is skipped, the longest prefix that is a decimal
    literal ([StrDecimalLiteral]) is read, and its value is rounded to
    the nearest number; [NaN] when no prefix is one. *)

Definition is_white_space (c : ascii) : bool :=
  let n := nat_of_ascii c in
  ((9 <=? n) && (n <=? 13) || (n =? 32) || (n =? 160))%nat.

Fixpoint trim_start (s : string) : string :=
  match s with
  | String c r => if is_white_space c then trim_start r else s
  | EmptyString => s
  end.

Definition is_digit (c : ascii) : bool :=
  let n := nat_of_ascii c in ((48 <=? n) && (n <=? 57))%nat.

Definition digit_value (c : ascii) : Z := Z.of_nat (nat_of_ascii c) - 48.

(** Reads decimal digits onto the accumulator: the value, how many
    digits were read, and the rest of the string. *)
Fixpoint read_digits (acc : Z) (s : string) : Z * nat * string :=
  match s with
  | String c r =>
      if is_digit c then
        let '(v, k, rest) := read_digits (10 * acc + digit_value c) r in
        (v, S k, rest)
      else (acc, O, s)
  | EmptyString => (acc, O, s)
  end.

Definition read_sign (s : string) : bool * string :=
  match s with
  | String "-" r => (true, r)
  | String "+" r => (false, r)
  | _ => (false, s)
  end.

(** The value of an exponent part [e[+-]digits] at the head of [s];
    [0] when [s] does not start with a complete one. *)
Definition read_exponent (s : string) : Z :=
  match s with
  | String ("e" | "E") r =>
      let '(neg, r') := read_sign r in
      let '(v, k, _) := read_digits 0 r' in
      match k with
      | O => 0
      | _ => if neg then - v else v
      end
  | _ => 0
  end.

Definition parseFloat (input : string) : number :=
  let '(neg, s1) := read_sign (trim_start input) in
  if String.prefix "Infinity" s1 then S754_infinity neg
  else
    let '(ip, ni, s2) := read_digits 0 s1 in
    let '(m, nf, s3) :=
      match s2 with
      | String "." r => read_digits ip r
      | _ => (ip, O, s2)
      end in
    match (ni + nf)%nat with
    | O => NaN
    | _ =>
        match m with
        | Zpos p => of_decimal neg p (read_exponent s3 - Z.of_nat nf)
        | _ => S754_zero neg
        end
    end.

(** ** Strings *)

Definition clamp (len : nat) (i : Z) : nat := Nat.min (Z.to_nat i) len.

(** [s.substring(start, end)]: both indices are clamped to
    [0 .. s.length] and swapped when out of order. *)
Definition substring (s : string) (i j : Z) : string :=
  let len := String.length s in
  let a := clamp len i in
  let b := clamp len j in
  String.substring (Nat.min a b) (Nat.max a b - Nat.min a b) s.

(** [s.substring(start)]. *)
Definition substring_from (s : string) (i : Z) : string :=
  substring s i (Z.of_nat (String.length s)).

(** [s.includes(t)]. *)
Fixpoint includes (s t : string) : bool :=
  String.prefix t s ||
  match s with
  | String _ r => includes r t
  | EmptyString => false
  end.

(** A string is truthy unless empty. *)
Definition truthy_string (s : string) : bool :=
  match s with
  | EmptyString => false
  | _ => true
  end.

(** The double quote and the line feed of template literals. *)
Definition dq : string := String (ascii_of_nat 34) EmptyString.
Definition nl : string := String (ascii_of_nat 10) EmptyString.

Fixpoint spaces (k : nat) : string :=
  match k with
  | O => EmptyString
  | S k' => String " " (spaces k')
  end.

(** ** Values read from a JSON response where a number is expected:
    the property is missing ([Undefined]), [null], or a number. *)

Inductive field : Type :=
  | Undefined
  | Null
  | Num (x : number).

(** [ToNumber]. *)
Definition to_number (v : field) : number :=
  match v with
  | Undefined => NaN
  | Null => pos_zero
  | Num x => x
  end.

(** [v != null]: neither [null] nor [undefined]. *)
Definition not_nullish (v : field) : bool :=
  match v with
  | Num _ => true
  | _ => false
  end.

(** [v > 0]: [ToNumber(v)] is compared; false on [NaN]. *)
Definition gt_zero (v : field) : bool := ltb pos_zero (to_number v).

(** [v !== 0]: strict inequality; a value that is no number differs
    from [0], and so does [NaN]. *)
Definition strict_ne_zero (v : field) : bool :=
  match v with
  | Num x => negb (eqb x pos_zero)
  | _ => true
  end.

(** ** Values held by the objects the forms build, and [JSON.stringify] *)

Inductive value : Type :=
  | VStr (s : string)
  | VNum (x : number)
  | VBool (b : bool).

(** [ToBoolean]. *)
Definition truthy (v : value) : bool :=
  match v with
  | VStr s => truthy_string s
  | VNum x =>
      match x with
      | S754_zero _ | S754_nan => false
      | _ => true
      end
  | VBool b => b
  end.

(** The JSON value a property serialises to. *)
Inductive json : Type :=
  | JNull
  | JBool (b : bool)
  | JNumber (x : number)
  | JString (s : string).

(** [SerializeJSONProperty]: a number that is not finite becomes
    [null]. *)
Definition json_of_value (v : value) : json :=
  match v with
  | VStr s => JString s
  | VNum x => if is_finite x then JNumber x else JNull
  | VBool b => JBool b
  end.

(** [JSON.stringify(obj)] of an object whose own properties are such
    values: the JSON object with the same keys. *)
Definition stringify (obj : gmap string value) : gmap string json :=
  json_of_value <$> obj.

(** [obj[key] = v] on an ordinary object, [v] a primitive: the
    inherited [__proto__] setter ignores a primitive, every other key
    becomes (or updates) an own property. *)
Definition set_property (key : string) (v : value) (obj : gmap string value)
  : gmap string value :=
  if String.eqb key "__proto__" then obj else <[key := v]> obj.

(** [Object.fromEntries(entries)]: own data properties, a later entry
    replacing an earlier one of the same name. *)
Definition fromEntries (entries : list (string * string)) : gmap string string :=
  fold_left (fun obj kv => <[fst kv := snd kv]> obj) entries ∅.

(** The value a form submits under [name] when the entries are turned
    into an object: that of its last entry of this name. *)
Fixpoint last_value (name : string) (entries : list (string * string))
  : option string :=
  match entries with
  | nil => None
  | (k, v) :: rest =>
      match last_value name rest with
      | Some w => Some w
      | None => if String.eqb k name then Some v else None
      end
  end.

(** [v == 0] on a response field: [null] and [undefined] equal only
    each other. *)
Definition loose_eq_zero (v : field) : bool :=
  match v with
  | Num x => eqb x pos_zero
  | _ => false
  end.

(** [obj.key] read for its truthiness: a missing property is
    [undefined]. *)
Definition truthy_property (v : option value) : bool :=
  match v with
  | Some x => truthy x
  | None => false
  end.

(** ** Requests handed to [fetch] *)

Inductive http_method : Type := GET | POST | PUT | DELETE.

Record Request : Type := {
  url : string;
  method : http_method;
  body : gmap string json
}.

(** What a submit handler does with the form: it stops at an [alert],
    or it sends a request. *)
Inductive submitted : Type :=
  | Alerted (message : string)
  | Sent (request : Request).

End Js.

(* ===================================================================== *)
(** * dashboard.js                                                        *)
(* ===================================================================== *)

Module Dashboard.
Import Js.

(** ** View-models of [GET /ui/dashboard-data] *)

Record StrategyConfig : Type := {
  id : string;
  strategy_name : string;
  trading_pair : string;
  api_id : string
}.

Record ActiveState : Type := {
  is_running : bool;
  current_position_quantity : field;
  average_entry_price : field;
  realized_pnl_usdt : field;
  total_invested_usdt : field
}.

(** [active_state] is [None] when the response carries no state (the
    strategy never ran). *)
Record Item : Type := {
  strategy_config : StrategyConfig;
  active_state : option ActiveState;
  current_market_price : field
}.

(** ** The page *)

(** A child of [#strategy-cards-container]: the [#loading-strategies]
    element itself (a reference: its text is the page's
    [loadingMessage]), markup assigned through [innerHTML], or a
    [div.strategy-card] appended by the renderer. *)
Inductive element : Type :=
  | Indicator
  | Markup (html : string)
  | Card (strategyId : string) (innerHTML : string).

(** [loadingMessage] is the text of the [#loading-strategies] element
    the script looked up when the page loaded, [None] when the page has
    no such element; the script keeps the element, and so its text,
    after a render has taken it out of the container.  [console]
    collects the [console.error] lines. *)
Record Page : Type := {
  container : list element;
  loadingMessage : option string;
  console : list string
}.

(** ** [renderStrategyCards]: the figures of one card *)

(** [v != null ? v.toFixed(f) : dflt]. *)
Definition fixed_or (f : nat) (dflt : string) (v : field) : string :=
  match v with
  | Num x => toFixed f x
  | _ => dflt
  end.

(** The condition of line 44, [state] being present:
    [state.current_position_quantity > 0 && currentPrice != null]. *)
Definition has_position (state : ActiveState) (currentPrice : field) : bool :=
  gt_zero (current_position_quantity state) && not_nullish currentPrice.

Definition positionValue (state : ActiveState) (currentPrice : field) : number :=
  mul (to_number (current_position_quantity state)) (to_number currentPrice).

Definition unrealizedPnl (state : ActiveState) (currentPrice : field) : number :=
  mul (sub (to_number currentPrice) (to_number (average_entry_price state)))
      (to_number (current_position_quantity state)).

(** Line 48: the dividend and the divisor of the division, when the
    guard [state.total_invested_usdt !== 0] lets it be evaluated. *)
Definition pnl_division (state : ActiveState) (currentPrice : field)
  : option (number * number) :=
  if strict_ne_zero (total_invested_usdt state)
  then Some (unrealizedPnl state currentPrice, to_number (total_invested_usdt state))
  else None.

Definition pnlPercentage (state : ActiveState) (currentPrice : field) : number :=
  match pnl_division state currentPrice with
  | Some (dividend, divisor) => mul (div dividend divisor) (of_Z 100)
  | None => pos_zero
  end.

(** The two template literals of the computed branch. *)
Definition position_block (avg qty value : string) : string :=
  nl ++ spaces 20 ++ "<p>Avg. Entry: " ++ avg ++ "</p>" ++
  nl ++ spaces 20 ++ "<p>Quantity: " ++ qty ++ "</p>" ++
  nl ++ spaces 20 ++ "<p>Value: " ++ value ++ " USDT</p>" ++
  nl ++ spaces 16.

Definition pnl_block (realized cls unrealized pct : string) : string :=
  nl ++ spaces 20 ++ "<p>Realized P&L: " ++ realized ++ " USDT</p>" ++
  nl ++ spaces 20 ++ "<p>Unrealized P&L: <span class=" ++ dq ++ cls ++ dq ++ ">"
     ++ unrealized ++ " USDT (" ++ pct ++ "%)</span></p>" ++
  nl ++ spaces 16.

(** The placeholders. *)
Definition not_active_position : string := "<p>Position: Not active or no position</p>".
Definition not_active_pnl : string := "<p>P&L: -</p>".
Definition no_position : string := "<p>Position: No current position</p>".

Definition no_position_pnl (state : ActiveState) : string :=
  "<p>Realized P&L: " ++ fixed_or 2 "0.00" (realized_pnl_usdt state)
    ++ " USDT</p><p>Unrealized P&L: -</p>".

(** [positionInfo] after lines 39-62. *)
Definition positionInfo (item : Item) : string :=
  let currentPrice := current_market_price item in
  match active_state item with
  | Some state =>
      if has_position state currentPrice then
        position_block
          (fixed_or 4 "N/A" (average_entry_price state))
          (fixed_or 4 "N/A" (current_position_quantity state))
          (toFixed 2 (positionValue state currentPrice))
      else no_position
  | None => not_active_position
  end.

(** [pnlInfo] after lines 39-62. *)
Definition pnlInfo (item : Item) : string :=
  let currentPrice := current_market_price item in
  match active_state item with
  | Some state =>
      if has_position state currentPrice then
        pnl_block
          (fixed_or 2 "0.00" (realized_pnl_usdt state))
          (if geb (unrealizedPnl state currentPrice) pos_zero then "profit" else "loss")
          (toFixed 2 (unrealizedPnl state currentPrice))
          (toFixed 2 (pnlPercentage state currentPrice))
      else no_position_pnl state
  | None => not_active_pnl
  end.

Definition statusText (item : Item) : string :=
  match active_state item with
  | Some state => if is_running state then "Running" else "Paused/Stopped"
  | None => "Not Started"
  end.

Definition runPauseButtonText (item : Item) : string :=
  match active_state item with
  | Some state => if is_running state then "Pause" else "Run"
  | None => "Run"
  end.

(** [card.innerHTML], lines 65-76. *)
Definition card_html (item : Item) : string :=
  let config := strategy_config item in
  nl ++ spaces 16 ++ "<h3>" ++ strategy_name config ++ "</h3>" ++
  nl ++ spaces 16 ++ "<p>Pair: " ++ trading_pair config ++ " | API ID: "
     ++ substring (api_id config) 0 8 ++ "...</p> " ++
  nl ++ spaces 16 ++ "<p>Status: <strong id=" ++ dq ++ "status-" ++ id config ++ dq ++ ">"
     ++ statusText item ++ "</strong> | Current Price: "
     ++ fixed_or 4 "N/A" (current_market_price item) ++ "</p>" ++
  nl ++ spaces 16 ++ positionInfo item ++
  nl ++ spaces 16 ++ pnlInfo item ++
  nl ++ spaces 16 ++ "<div class=" ++ dq ++ "controls" ++ dq ++ ">" ++
  nl ++ spaces 20 ++ "<button class=" ++ dq ++ "runPauseBtn" ++ dq ++ " data-id=" ++ dq
     ++ id config ++ dq ++ ">" ++ runPauseButtonText item ++ "</button>" ++
  nl ++ spaces 20 ++ "<button class=" ++ dq ++ "modifyBtn" ++ dq ++ " data-id=" ++ dq
     ++ id config ++ dq ++ ">Modify</button>" ++
  nl ++ spaces 20 ++ "<button class=" ++ dq ++ "deleteStrategyBtn" ++ dq ++ " data-id=" ++ dq
     ++ id config ++ dq ++ ">Delete Strategy</button>" ++
  nl ++ spaces 16 ++ "</div>" ++
  nl ++ spaces 12.

Definition render_card (item : Item) : element :=
  Card (id (strategy_config item)) (card_html item).

Definition no_strategies : string :=
  "<p>No strategies configured yet. <a href=" ++ dq ++ "/add-strategy-page" ++ dq
    ++ ">Add a strategy!</a></p>".

(** [renderStrategyCards(strategiesData)] on well-formed data, every
    item of which renders: the container is cleared and rebuilt; [None]
    is a missing or [null] [strategies_data].  Data on which the
    renderer throws half-way is the matter of [DashboardRefresh]. *)
Definition renderStrategyCards (strategiesData : option (list Item)) (p : Page) : Page :=
  let children :=
    match strategiesData with
    | None | Some nil => Markup no_strategies :: nil
    | Some items => List.map render_card items
    end in
  {| container := children;
     loadingMessage := loadingMessage p;
     console := console p |}.

(** ** [fetchDashboardData] *)

(** What [fetch] and [response.json()] come to: the request is rejected
    (transport failure), or a response arrives with a status and a body;
    the body is [None] when [response.json()] throws or yields [null]
    (reading a property of which throws).  Any other decoded body holds
    its [strategies_data] property, [None] when missing or [null]; a
    body that is a number, a string or a boolean has none. *)
Inductive fetched : Type :=
  | Rejected (reason : string)
  | Response (status : Z) (body : option (option (list Item))).

(** [response.ok]. *)
Definition ok (status : Z) : bool := (200 <=? status) && (status <=? 299).

Definition load_failed : string := "Error loading strategies.".
Definition load_failed_markup : string :=
  "<p>Could not load strategy data. Please try again later.</p>".

(** The [catch] block, lines 11-19. *)
Definition on_fetch_error (diagnostic : string) (p : Page) : Page :=
  let logged := app (console p) (("Error fetching dashboard data: " ++ diagnostic) :: nil) in
  match loadingMessage p with
  | Some _ =>
      {| container := container p;
         loadingMessage := Some load_failed;
         console := logged |}
  | None =>
      {| container := Markup load_failed_markup :: nil;
         loadingMessage := None;
         console := logged |}
  end.

Definition fetchDashboardData (r : fetched) (p : Page) : Page :=
  match r with
  | Rejected reason => on_fetch_error reason p
  | Response status body =>
      if ok status then
        match body with
        | Some data => renderStrategyCards data p
        | None => on_fetch_error "response body is not JSON" p
        end
      else on_fetch_error ("HTTP error! status: " ++ digits_of_N (Z.to_N status)) p
  end.

(** A fetch that failed by transport or by status. *)
Definition failed (r : fetched) : bool :=
  match r with
  | Rejected _ => true
  | Response status _ => negb (ok status)
  end.

End Dashboard.

(* ===================================================================== *)
(** * api_management.js                                                   *)
(* ===================================================================== *)

Module ApiManagement.
Import Js.

(** A credential record of [GET /apis/]; [secret_key] is [None] when the
    response leaves it out. *)
Record ApiKeyRecord : Type := {
  id : string;
  alias : string;
  api_key : string;
  secret_key : option string;
  mode : string;
  connection_status : string
}.

(** The inputs of [#apiKeyForm]. *)
Record FormFields : Type := {
  apiId_value : string;
  alias_value : string;
  api_key_value : string;
  secret_key_value : string;
  mode_value : string
}.

(** The page: the rows of [#apiKeysTable tbody] (each by its
    [innerHTML]), the form with its title and visibility, and the
    controller's [currentEditApiId]. *)
Record Page : Type := {
  tableBody : list string;
  formTitle : string;
  fields : FormFields;
  secret_required : bool;
  secret_placeholder : string;
  formDisplay : string;
  currentEditApiId : option string;
  console : list string
}.

(** ** [fetchApiKeys] *)

(** Line 20. *)
Definition keyDisplay (apiKey : ApiKeyRecord) : string :=
  substring (api_key apiKey) 0 4 ++ "..."
    ++ substring_from (api_key apiKey) (Z.of_nat (String.length (api_key apiKey)) - 4).

(** [row.innerHTML], lines 21-30. *)
Definition row_html (apiKey : ApiKeyRecord) : string :=
  nl ++ spaces 20 ++ "<td>" ++ alias apiKey ++ "</td>" ++
  nl ++ spaces 20 ++ "<td>" ++ keyDisplay apiKey ++ "</td>" ++
  nl ++ spaces 20 ++ "<td>" ++ mode apiKey ++ "</td>" ++
  nl ++ spaces 20 ++ "<td style=" ++ dq ++ "color: "
     ++ (if String.eqb (connection_status apiKey) "connected" then "green" else "red")
     ++ ";" ++ dq ++ ">" ++ connection_status apiKey ++ "</td>" ++
  nl ++ spaces 20 ++ "<td>" ++
  nl ++ spaces 24 ++ "<button class=" ++ dq ++ "editBtn" ++ dq ++ " data-id=" ++ dq
     ++ id apiKey ++ dq ++ ">Edit</button>" ++
  nl ++ spaces 24 ++ "<button class=" ++ dq ++ "deleteBtn" ++ dq ++ " data-id=" ++ dq
     ++ id apiKey ++ dq ++ ">Delete</button>" ++
  nl ++ spaces 20 ++ "</td>" ++
  nl ++ spaces 16.

(** The cells of the one row that
    [<tr><td colspan="5">Error loading API keys.</td></tr>] parses to. *)
Definition error_row : string :=
  "<td colspan=" ++ dq ++ "5" ++ dq ++ ">Error loading API keys.</td>".

(** The outcome of [fetch('/apis/')] and [response.json()]; the body is
    [None] when it is no JSON array. *)
Inductive fetched : Type :=
  | Rejected (reason : string)
  | Response (status : Z) (body : option (list ApiKeyRecord)).

Definition ok (status : Z) : bool := (200 <=? status) && (status <=? 299).

Definition set_table (rows : list string) (log : list string) (p : Page) : Page :=
  {| tableBody := rows;
     formTitle := formTitle p;
     fields := fields p;
     secret_required := secret_required p;
     secret_placeholder := secret_placeholder p;
     formDisplay := formDisplay p;
     currentEditApiId := currentEditApiId p;
     console := app (console p) log |}.

(** The [catch] block, lines 33-36. *)
Definition on_fetch_error (diagnostic : string) (p : Page) : Page :=
  set_table (error_row :: nil) (("Error fetching API keys: " ++ diagnostic) :: nil) p.

Definition fetchApiKeys (r : fetched) (p : Page) : Page :=
  match r with
  | Rejected reason => on_fetch_error reason p
  | Response status body =>
      if ok status then
        match body with
        | Some apiKeys => set_table (List.map row_html apiKeys) nil p
        | None => on_fetch_error "response body is not a JSON array" p
        end
      else on_fetch_error ("HTTP error! status: " ++ digits_of_N (Z.to_N status)) p
  end.

Definition failed (r : fetched) : bool :=
  match r with
  | Rejected _ => true
  | Response status _ => negb (ok status)
  end.

(** ** The edit button, lines 110-128 (the record was fetched) *)

Definition on_edit_loaded (button_id : string) (apiKey : ApiKeyRecord) (p : Page) : Page :=
  {| tableBody := tableBody p;
     formTitle := "Edit API Key";
     fields := {| apiId_value := id apiKey;
                  alias_value := alias apiKey;
                  api_key_value := api_key apiKey;
                  secret_key_value := EmptyString;
                  mode_value := mode apiKey |};
     secret_required := false;
     secret_placeholder := "Enter new secret to change";
     formDisplay := "block";
     currentEditApiId := Some button_id;
     console := console p |}.

(** ** The submit handler, lines 55-90: the request it sends *)

(** [if (currentEditApiId)]: set and not the empty string. *)
Definition edit_mode (currentEditApiId : option string) : bool :=
  match currentEditApiId with
  | Some i => truthy_string i
  | None => false
  end.

(** [!data.secret_key]. *)
Definition secret_missing (data : gmap string string) : bool :=
  match data !! "secret_key" with
  | Some v => negb (truthy_string v)
  | None => true
  end.

Definition json_body (data : gmap string string) : gmap string json :=
  stringify (VStr <$> delete "apiId" data).

Definition on_submit (currentEditApiId : option string)
    (entries : list (string * string)) : submitted :=
  let data := fromEntries entries in
  match currentEditApiId with
  | Some i =>
      if truthy_string i then
        let data := if secret_missing data then delete "secret_key" data else data in
        Sent {| url := "/apis/" ++ i; method := PUT; body := json_body data |}
      else if secret_missing data then Alerted "Secret Key is required for new API Key."
      else Sent {| url := "/apis/"; method := POST; body := json_body data |}
  | None =>
      if secret_missing data then Alerted "Secret Key is required for new API Key."
      else Sent {| url := "/apis/"; method := POST; body := json_body data |}
  end.

End ApiManagement.

(* ===================================================================== *)
(** * add_strategy.js                                                     *)
(* ===================================================================== *)

Module AddStrategy.
Import Js.

(** What the submit handler reads: the entries of
    [new FormData(addStrategyForm)] in order, the [checked] state of the
    three checkboxes and the [value] of [#order_timeout_seconds]. *)
Record Form : Type := {
  entries : list (string * string);
  cyclic_execution : bool;
  cover_orders_participate_in_profit_taking : bool;
  enable_order_timeout : bool;
  order_timeout_seconds : string
}.

(** Line 46. *)
Definition is_checkbox (key : string) : bool :=
  String.eqb key "cyclic_execution"
  || String.eqb key "cover_orders_participate_in_profit_taking"
  || String.eqb key "enable_order_timeout".

(** Line 48. *)
Definition is_numeric (key : string) : bool :=
  includes key "percentage" || includes key "amount" || includes key "multiplier"
  || includes key "count" || includes key "seconds".

(** The callback of [formData.forEach], lines 44-54. *)
Definition collect (data : gmap string value) (entry : string * string)
  : gmap string value :=
  let '(key, v) := entry in
  if is_checkbox key then data
  else if is_numeric key then set_property key (VNum (parseFloat v)) data
  else set_property key (VStr v) data.

(** [data] as it stands at line 67. *)
Definition build_data (f : Form) : gmap string value :=
  let data := fold_left collect (entries f) ∅ in
  let data := set_property "cyclic_execution" (VBool (cyclic_execution f)) data in
  let data := set_property "cover_orders_participate_in_profit_taking"
                (VBool (cover_orders_participate_in_profit_taking f)) data in
  let data := set_property "enable_order_timeout" (VBool (enable_order_timeout f)) data in
  if negb (truthy_property (data !! "enable_order_timeout"))
  then delete "order_timeout_seconds" data
  else set_property "order_timeout_seconds"
         (VNum (parseFloat (order_timeout_seconds f))) data.

(** Lines 69-79. *)
Definition on_submit (f : Form) : submitted :=
  let data := build_data f in
  if negb (truthy_property (data !! "api_id")) then Alerted "Please select an API Key."
  else Sent {| url := "/strategies/"; method := POST; body := stringify data |}.

End AddStrategy.

(* ===================================================================== *)
(** * dashboard.js: polling and the run/pause button                      *)
(* ===================================================================== *)

Module DashboardControls.
Import Js Dashboard.

(** ** Refreshes in the order in which they complete (lines 137-138)

    A refresh touches the page only in its last synchronous stretch,
    the render or the [catch] block, so a run of refreshes acts on the
    page one outcome after the other. *)
Definition poll (outcomes : list fetched) (p : Page) : Page :=
  fold_left (fun page r => fetchDashboardData r page) outcomes p.

(** The data an outcome hands to [renderStrategyCards]: the status is
    2xx and the body is JSON. *)
Definition rendered_data (r : fetched) : option (option (list Item)) :=
  match r with
  | Response status (Some data) => if ok status then Some data else None
  | _ => None
  end.

(** ** The run/pause button, lines 85-93 *)

(** [statusElement] is the text of [#status-<id>], [None] when the
    document has no such element; [buttonText] is the button's text. *)
Definition currentStatusText (statusElement : option string) (buttonText : string)
  : string :=
  match statusElement with
  | Some text => text
  | None => if String.eqb buttonText "Pause" then "Running" else "Paused/Stopped"
  end.

Definition action (statusElement : option string) (buttonText : string) : string :=
  if String.eqb (currentStatusText statusElement buttonText) "Running"
  then "pause" else "start".

(** The address the click posts to. *)
Definition control_url (strategyId : string) (statusElement : option string)
    (buttonText : string) : string :=
  "/control/strategies/" ++ strategyId ++ "/" ++ action statusElement buttonText.

End DashboardControls.

(* ===================================================================== *)
(** * api_management.js: the handlers around the form                     *)
(* ===================================================================== *)

Module ApiKeyForm.
Import Js ApiManagement.

(** A response body read with [response.json()]: the parser throws with
    a message, or it yields a value. *)
Inductive body_of (A : Type) : Type :=
  | Unparsable (message : string)
  | Parsed (x : A).
Arguments Unparsable {A} message.
Arguments Parsed {A} x.

(** [GET /apis/<id>] as the edit button sees it. *)
Inductive detail_response : Type :=
  | DetailRejected (reason : string)
  | DetailResponse (status : Z) (body : body_of ApiKeyRecord).

(** The answer to a save or a delete: the body of an error carries an
    optional [detail] string. *)
Inductive action_response : Type :=
  | ActionRejected (reason : string)
  | ActionResponse (status : Z) (body : body_of (option string)).

(** [detail || fallback]. *)
Definition detail_or (fallback : string) (detail : option string) : string :=
  match detail with
  | Some d => if truthy_string d then d else fallback
  | None => fallback
  end.

Definition log (line : string) (p : Page) : Page :=
  {| tableBody := tableBody p;
     formTitle := formTitle p;
     fields := fields p;
     secret_required := secret_required p;
     secret_placeholder := secret_placeholder p;
     formDisplay := formDisplay p;
     currentEditApiId := currentEditApiId p;
     console := app (console p) (line :: nil) |}.

Section Handlers.

(** What [apiKeyForm.reset()] puts back: the default values of the
    inputs, as the page's markup gives them. *)
Variable defaults : FormFields.

(** The "add" button, lines 40-47. *)
Definition on_show_add (p : Page) : Page :=
  {| tableBody := tableBody p;
     formTitle := "Add API Key";
     fields := defaults;
     secret_required := true;
     secret_placeholder := EmptyString;
     formDisplay := "block";
     currentEditApiId := None;
     console := console p |}.

(** The "cancel" button, lines 49-52. *)
Definition on_cancel (p : Page) : Page :=
  {| tableBody := tableBody p;
     formTitle := formTitle p;
     fields := defaults;
     secret_required := secret_required p;
     secret_placeholder := secret_placeholder p;
     formDisplay := "none";
     currentEditApiId := currentEditApiId p;
     console := console p |}.

(** The edit button of a row, lines 110-133: the id and the title are
    set before the record is asked for; the page and the [alert] if any. *)
Definition on_edit_failed (button_id : string) (diagnostic : string) (p : Page)
  : Page * option string :=
  ({| tableBody := tableBody p;
      formTitle := "Edit API Key";
      fields := fields p;
      secret_required := secret_required p;
      secret_placeholder := secret_placeholder p;
      formDisplay := formDisplay p;
      currentEditApiId := Some button_id;
      console := app (console p) (("Error preparing edit form: " ++ diagnostic) :: nil) |},
   Some "Error loading API key for editing.").

Definition on_edit_click (button_id : string) (r : detail_response) (p : Page)
  : Page * option string :=
  match r with
  | DetailRejected reason => on_edit_failed button_id reason p
  | DetailResponse status body =>
      if ok status then
        match body with
        | Parsed apiKey => (on_edit_loaded button_id apiKey p, None)
        | Unparsable message => on_edit_failed button_id message p
        end
      else on_edit_failed button_id "Failed to fetch API key details" p
  end.

(** The submit handler once the request is answered, lines 85-104;
    [refresh] is the outcome of the [fetchApiKeys()] a success starts. *)
Definition hide_and_reset (p : Page) : Page :=
  {| tableBody := tableBody p;
     formTitle := formTitle p;
     fields := defaults;
     secret_required := secret_required p;
     secret_placeholder := secret_placeholder p;
     formDisplay := "none";
     currentEditApiId := currentEditApiId p;
     console := console p |}.

Definition save_failed (message : string) (p : Page) : Page * option string :=
  (log ("Error saving API key: " ++ message) p, Some ("Error saving API key: " ++ message)).

Definition on_save_finished (r : action_response) (refresh : fetched) (p : Page)
  : Page * option string :=
  match r with
  | ActionRejected reason => save_failed reason p
  | ActionResponse status body =>
      match body with
      | Unparsable message => save_failed message p
      | Parsed detail =>
          if ok status then (hide_and_reset (fetchApiKeys refresh p), None)
          else save_failed
                 ("HTTP error! status: " ++ digits_of_N (Z.to_N status)
                    ++ ", message: " ++ detail_or "Unknown error" detail) p
      end
  end.

(** The delete button of a row, lines 137-155. *)
Definition delete_request (apiId : string) : http_method * string :=
  (DELETE, "/apis/" ++ apiId).

Definition delete_failed (message : string) (p : Page) : Page * option string :=
  (log ("Error deleting API key: " ++ message) p,
   Some ("Error deleting API key: " ++ message)).

Definition on_delete_finished (confirmed : bool) (r : action_response)
    (refresh : fetched) (p : Page) : Page * option string :=
  if confirmed then
    match r with
    | ActionRejected reason => delete_failed reason p
    | ActionResponse status body =>
        if ok status then (fetchApiKeys refresh p, None)
        else
          match body with
          | Parsed detail => delete_failed (detail_or "Failed to delete API key" detail) p
          | Unparsable _ => delete_failed "Failed to delete API key" p
          end
    end
  else (p, None).

(** ** The page under a run of events *)

Inductive event : Type :=
  | ShowAdd
  | Cancel
  | EditClicked (button_id : string) (r : detail_response)
  | ListFetched (r : fetched)
  | SaveFinished (r : action_response) (refresh : fetched)
  | DeleteFinished (confirmed : bool) (r : action_response) (refresh : fetched).

Definition step (p : Page) (e : event) : Page :=
  match e with
  | ShowAdd => on_show_add p
  | Cancel => on_cancel p
  | EditClicked button_id r => fst (on_edit_click button_id r p)
  | ListFetched r => fetchApiKeys r p
  | SaveFinished r refresh => fst (on_save_finished r refresh p)
  | DeleteFinished confirmed r refresh => fst (on_delete_finished confirmed r refresh p)
  end.

Definition run (events : list event) (p : Page) : Page := fold_left step events p.

End Handlers.

(** The title tells the mode: it reads "Edit API Key" exactly when an
    edit id is held. *)
Definition title_tells_mode (p : Page) : Prop :=
  formTitle p = "Edit API Key" <-> currentEditApiId p <> None.

End ApiKeyForm.

(* ===================================================================== *)
(** * add_strategy.js: the API-key dropdown                               *)
(* ===================================================================== *)

Module StrategyOptions.
Import Js.

(** An [<option>] of [#api_id]: its value and its text. *)
Definition select_option : Type := (string * string)%type.

Definition connected (apiKey : ApiManagement.ApiKeyRecord) : bool :=
  String.eqb (ApiManagement.connection_status apiKey) "connected".

(** The callback of [apiKeys.forEach], lines 16-24: the options so far
    and [connectedKeysFound]. *)
Definition add_option (acc : list select_option * bool)
    (apiKey : ApiManagement.ApiKeyRecord) : list select_option * bool :=
  if connected apiKey then
    (app (fst acc)
       ((ApiManagement.id apiKey,
         ApiManagement.alias apiKey ++ " (" ++ ApiManagement.mode apiKey ++ ")") :: nil),
     true)
  else acc.

Definition load_error : list select_option :=
  (EmptyString, "Error loading API Keys") :: nil.

(** [populateApiKeys], lines 8-32: the options of the dropdown. *)
Definition populateApiKeys (r : ApiManagement.fetched) : list select_option :=
  match r with
  | ApiManagement.Rejected _ => load_error
  | ApiManagement.Response status body =>
      if ApiManagement.ok status then
        match body with
        | Some apiKeys =>
            let '(options, connectedKeysFound) :=
              fold_left add_option apiKeys
                ((EmptyString, "Select an API Key") :: nil, false) in
            if negb connectedKeysFound then
              (EmptyString,
               "No connected API Keys found. Please add and check API connection.") :: nil
            else options
        | None => load_error
        end
      else load_error
  end.

(** The records a response lists, none when the fetch failed. *)
Definition listed (r : ApiManagement.fetched) : list ApiManagement.ApiKeyRecord :=
  match r with
  | ApiManagement.Response status (Some apiKeys) =>
      if ApiManagement.ok status then apiKeys else nil
  | _ => nil
  end.

End StrategyOptions.

(* ===================================================================== *)
(** * dashboard.js: a refresh whose rendering may throw                   *)
(* ===================================================================== *)

Module DashboardRefresh.
Import Js Dashboard.

(** An element of [strategies_data] as lines 31-77 take it: its card is
    built and appended, or building it throws before anything is
    appended (no [strategy_config], an [api_id] that is no string, a
    price or a figure of the state that is neither null nor a number and
    so has no [toFixed]). *)
Inductive rendering : Type :=
  | Renders (item : Item)
  | Throws (reason : string).

(** [strategies_data] as [renderStrategyCards] receives it: falsy or of
    length 0; truthy and of another length but no array, so that it has
    no [forEach]; or an array. *)
Inductive strategies : Type :=
  | Empty
  | NoArray (reason : string)
  | Array (items : list rendering).

(** The outcome of a fetch; the body is [None] when [response.json()]
    throws or yields [null]. *)
Inductive outcome : Type :=
  | Rejected (reason : string)
  | Response (status : Z) (body : option strategies).

(** [forEach], lines 30-78: the cards appended so far, up to the first
    item that throws, and what it threw. *)
Fixpoint append_cards (items : list rendering) (cards : list element)
  : list element * option string :=
  match items with
  | nil => (cards, None)
  | Renders item :: rest => append_cards rest (app cards (render_card item :: nil))
  | Throws reason :: _ => (cards, Some reason)
  end.

(** Lines 23-78: the children of the container when the renderer
    returns or throws, and what it threw. *)
Definition build (data : strategies) : list element * option string :=
  match data with
  | Empty | Array nil => (Markup no_strategies :: nil, None)
  | NoArray reason => (nil, Some reason)
  | Array items => append_cards items nil
  end.

Definition renderStrategyCards (data : strategies) (p : Page) : Page * option string :=
  ({| container := fst (build data);
      loadingMessage := loadingMessage p;
      console := console p |},
   snd (build data)).

(** [fetchDashboardData], lines 5-20: what the renderer throws is
    caught like a failed fetch, on the page as the renderer left it. *)
Definition fetchDashboardData (r : outcome) (p : Page) : Page :=
  match r with
  | Rejected reason => on_fetch_error reason p
  | Response status body =>
      if ok status then
        match body with
        | Some data =>
            match renderStrategyCards data p with
            | (rendered, None) => rendered
            | (rendered, Some reason) => on_fetch_error reason rendered
            end
        | None => on_fetch_error "response body is not JSON" p
        end
      else on_fetch_error ("HTTP error! status: " ++ digits_of_N (Z.to_N status)) p
  end.

(** Refreshes in the order in which they complete. *)
Definition poll (outcomes : list outcome) (p : Page) : Page :=
  fold_left (fun page r => fetchDashboardData r page) outcomes p.

(** The data an outcome hands to the renderer. *)
Definition reached (r : outcome) : option strategies :=
  match r with
  | Response status (Some data) => if ok status then Some data else None
  | _ => None
  end.

(** The data of the last outcome that reached the renderer. *)
Fixpoint last_reached (outcomes : list outcome) : option strategies :=
  match outcomes with
  | nil => None
  | r :: rest =>
      match last_reached rest with
      | Some data => Some data
      | None => reached r
      end
  end.

(** The outcome ends in the [catch] block: it does not reach the
    renderer, or the renderer throws. *)
Definition caught (r : outcome) : bool :=
  match reached r with
  | Some data => match snd (build data) with Some _ => true | None => false end
  | None => true
  end.

(** The items of an array up to the first one that throws. *)
Fixpoint rendered_before (items : list rendering) : list Item :=
  match items with
  | Renders item :: rest => item :: rendered_before rest
  | _ => nil
  end.

(** A well-formed response of [Dashboard] as an outcome. *)
Definition well_formed (r : Dashboard.fetched) : outcome :=
  match r with
  | Dashboard.Rejected reason => Rejected reason
  | Dashboard.Response status body =>
      Response status
        (option_map
           (fun data =>
              match data with
              | Some items => Array (List.map Renders items)
              | None => Empty
              end) body)
  end.

End DashboardRefresh.

(* ===================================================================== *)
(** * Vocabulary of the statements, and sample inputs                    *)
(* ===================================================================== *)

Module Shown.
Import Js Dashboard.

(** [text] stands in [html]. *)
Definition within (html text : string) : Prop :=
  exists before after : string, html = before ++ text ++ after.

(** [html] begins with [text]. *)
Definition starts (html text : string) : Prop :=
  exists after : string, html = text ++ after.

(** The markup of a position block with its three figures, and of a PnL
    block with the realized figure, the class and the two unrealized
    figures, as the page shows them. *)
Definition position_figures (avg qty value : string) : string :=
  nl ++ spaces 20 ++ "<p>Avg. Entry: " ++ avg ++ "</p>" ++
  nl ++ spaces 20 ++ "<p>Quantity: " ++ qty ++ "</p>" ++
  nl ++ spaces 20 ++ "<p>Value: " ++ value ++ " USDT</p>" ++
  nl ++ spaces 16.

Definition unrealized_line (cls unrealized pct : string) : string :=
  "<p>Unrealized P&L: <span class=" ++ dq ++ cls ++ dq ++ ">"
    ++ unrealized ++ " USDT (" ++ pct ++ "%)</span></p>".

Definition pnl_figures (realized cls unrealized pct : string) : string :=
  nl ++ spaces 20 ++ "<p>Realized P&L: " ++ realized ++ " USDT</p>" ++
  nl ++ spaces 20 ++ unrealized_line cls unrealized pct ++
  nl ++ spaces 16.

(** The card of [item] carries [position] as its position block and
    [pnl] as its PnL block: these are the two blocks the renderer built,
    and they stand in the card's markup, one after the other. *)
Definition carries (item : Item) (position pnl : string) : Prop :=
  positionInfo item = position /\
  pnlInfo item = pnl /\
  within (card_html item) (position ++ nl ++ spaces 16 ++ pnl).




(** The row of a credential record as the table shows it, the key
    column holding [key_column]. *)
Definition row_with (apiKey : ApiManagement.ApiKeyRecord) (key_column : string) : string :=
  nl ++ spaces 20 ++ "<td>" ++ ApiManagement.alias apiKey ++ "</td>" ++
  nl ++ spaces 20 ++ "<td>" ++ key_column ++ "</td>" ++
  nl ++ spaces 20 ++ "<td>" ++ ApiManagement.mode apiKey ++ "</td>" ++
  nl ++ spaces 20 ++ "<td style=" ++ dq ++ "color: "
     ++ (if String.eqb (ApiManagement.connection_status apiKey) "connected"
         then "green" else "red")
     ++ ";" ++ dq ++ ">" ++ ApiManagement.connection_status apiKey ++ "</td>" ++
  nl ++ spaces 20 ++ "<td>" ++
  nl ++ spaces 24 ++ "<button class=" ++ dq ++ "editBtn" ++ dq ++ " data-id=" ++ dq
     ++ ApiManagement.id apiKey ++ dq ++ ">Edit</button>" ++
  nl ++ spaces 24 ++ "<button class=" ++ dq ++ "deleteBtn" ++ dq ++ " data-id=" ++ dq
     ++ ApiManagement.id apiKey ++ dq ++ ">Delete</button>" ++
  nl ++ spaces 20 ++ "</td>" ++
  nl ++ spaces 16.

End Shown.

Module Left.
Import Js Dashboard DashboardRefresh.

(** [el] is the card of [item]: it bears the strategy's id, and its
    markup shows the strategy's name and its status. *)
Definition card_of (item : Item) (el : element) : Prop :=
  exists html,
    el = Card (id (strategy_config item)) html /\
    Shown.within html ("<h3>" ++ strategy_name (strategy_config item) ++ "</h3>") /\
    Shown.within html
      ("<strong id=" ++ dq ++ "status-" ++ id (strategy_config item) ++ dq ++ ">"
         ++ statusText item ++ "</strong>").

(** What the renderer leaves in the container for [data]: the
    invitation to add a strategy; nothing; or the cards of the items
    before the first one that throws, in order. *)
Definition by_renderer (data : strategies) (children : list element) : Prop :=
  match data with
  | Empty | Array nil =>
      children
      = Markup ("<p>No strategies configured yet. <a href=" ++ dq
                  ++ "/add-strategy-page" ++ dq ++ ">Add a strategy!</a></p>") :: nil
  | NoArray _ => children = nil
  | Array items => Forall2 card_of (rendered_before items) children
  end.

(** How many outcomes ended in the [catch] block. *)
Definition failures (outcomes : list outcome) : nat :=
  List.length (List.filter caught outcomes).

End Left.

(** The first four characters, the separator, the last four. *)
Definition masked (key : string) : string :=
  String.substring 0 4 key ++ "..."
    ++ String.substring (String.length key - 4) 4 key.

Definition sample_config : Dashboard.StrategyConfig :=
  {| Dashboard.id := "7"; Dashboard.strategy_name := "grid";
     Dashboard.trading_pair := "BTCUSDT"; Dashboard.api_id := "0123456789abcdef" |}.

(** A running strategy holding 5 units bought at 100, 500 invested. *)
Definition sample_state : Dashboard.ActiveState :=
  {| Dashboard.is_running := true;
     Dashboard.current_position_quantity := Js.Num (Js.of_Z 5);
     Dashboard.average_entry_price := Js.Num (Js.of_Z 100);
     Dashboard.realized_pnl_usdt := Js.Null;
     Dashboard.total_invested_usdt := Js.Num (Js.of_Z 500) |}.

Definition sample_item : Dashboard.Item :=
  {| Dashboard.strategy_config := sample_config;
     Dashboard.active_state := Some sample_state;
     Dashboard.current_market_price := Js.Num (Js.parseFloat "110.5") |}.


(** The same position with nothing invested and no entry price. *)
Definition free_state : Dashboard.ActiveState :=
  {| Dashboard.is_running := false;
     Dashboard.current_position_quantity := Js.Num (Js.of_Z 5);
     Dashboard.average_entry_price := Js.Null;
     Dashboard.realized_pnl_usdt := Js.Num (Js.parseFloat "-3.456");
     Dashboard.total_invested_usdt := Js.Num Js.pos_zero |}.

Definition free_item : Dashboard.Item :=
  {| Dashboard.strategy_config := sample_config;
     Dashboard.active_state := Some free_state;
     Dashboard.current_market_price := Js.Num (Js.parseFloat "110.5") |}.

(** A dashboard page as loaded, the indicator inside the container. *)
Definition loading_page : Dashboard.Page :=
  {| Dashboard.container := Dashboard.Indicator :: nil;
     Dashboard.loadingMessage := Some "Loading strategies...";
     Dashboard.console := nil |}.

(** A dashboard that has rendered one card, on a page without the
    [#loading-strategies] element. *)
Definition rendered_page : Dashboard.Page :=
  {| Dashboard.container := Dashboard.render_card sample_item :: nil;
     Dashboard.loadingMessage := None;
     Dashboard.console := nil |}.

(** The same dashboard on a page that has the element. *)
Definition rendered_page_with_indicator : Dashboard.Page :=
  {| Dashboard.container := Dashboard.render_card sample_item :: nil;
     Dashboard.loadingMessage := Some "Loading strategies...";
     Dashboard.console := nil |}.

(** A credential record, and the same record with another secret. *)
Definition sample_key : ApiManagement.ApiKeyRecord :=
  {| ApiManagement.id := "3"; ApiManagement.alias := "main";
     ApiManagement.api_key := "AKIAabcdefghijklmnopWXYZ";
     ApiManagement.secret_key := Some "s3cr3t";
     ApiManagement.mode := "live";
     ApiManagement.connection_status := "connected" |}.

Definition with_secret (secret : option string) (r : ApiManagement.ApiKeyRecord)
  : ApiManagement.ApiKeyRecord :=
  {| ApiManagement.id := ApiManagement.id r;
     ApiManagement.alias := ApiManagement.alias r;
     ApiManagement.api_key := ApiManagement.api_key r;
     ApiManagement.secret_key := secret;
     ApiManagement.mode := ApiManagement.mode r;
     ApiManagement.connection_status := ApiManagement.connection_status r |}.

Definition with_api_key (key : string) (r : ApiManagement.ApiKeyRecord)
  : ApiManagement.ApiKeyRecord :=
  {| ApiManagement.id := ApiManagement.id r;
     ApiManagement.alias := ApiManagement.alias r;
     ApiManagement.api_key := key;
     ApiManagement.secret_key := ApiManagement.secret_key r;
     ApiManagement.mode := ApiManagement.mode r;
     ApiManagement.connection_status := ApiManagement.connection_status r |}.

(** The API-key page while a key is being edited. *)
Definition editing_page : ApiManagement.Page :=
  {| ApiManagement.tableBody := ApiManagement.row_html sample_key :: nil;
     ApiManagement.formTitle := "Edit API Key";
     ApiManagement.fields :=
       {| ApiManagement.apiId_value := "3";
          ApiManagement.alias_value := "main";
          ApiManagement.api_key_value := "AKIAabcdefghijklmnopWXYZ";
          ApiManagement.secret_key_value := "n3w";
          ApiManagement.mode_value := "live" |};
     ApiManagement.secret_required := false;
     ApiManagement.secret_placeholder := "Enter new secret to change";
     ApiManagement.formDisplay := "block";
     ApiManagement.currentEditApiId := Some "3";
     ApiManagement.console := nil |}.

(** An edit of the key form that leaves the secret blank, and one that
    enters a new secret. *)
Definition edit_keeping_secret : list (string * string) :=
  ("apiId", "3") :: ("alias", "main") :: ("api_key", "AKIAabcdefghijklmnopWXYZ")
  :: ("secret_key", EmptyString) :: ("mode", "live") :: nil.

Definition edit_changing_secret : list (string * string) :=
  ("apiId", "3") :: ("alias", "main") :: ("api_key", "AKIAabcdefghijklmnopWXYZ")
  :: ("secret_key", " n3w ") :: ("mode", "live") :: nil.

(** An add-strategy form with the order timeout switched off: the
    seconds input, though hidden, is still among the entries, blank. *)
Definition form_without_timeout : AddStrategy.Form :=
  {| AddStrategy.entries :=
       ("strategy_name", "grid") :: ("api_id", "3")
       :: ("take_profit_percentage", "1.5") :: ("max_cover_count", EmptyString)
       :: ("order_timeout_seconds", EmptyString) :: nil;
     AddStrategy.cyclic_execution := true;
     AddStrategy.cover_orders_participate_in_profit_taking := false;
     AddStrategy.enable_order_timeout := false;
     AddStrategy.order_timeout_seconds := EmptyString |}.

(** The same form with the timeout switched on and the seconds blank. *)
Definition form_with_blank_timeout : AddStrategy.Form :=
  {| AddStrategy.entries := AddStrategy.entries form_without_timeout;
     AddStrategy.cyclic_execution := true;
     AddStrategy.cover_orders_participate_in_profit_taking := false;
     AddStrategy.enable_order_timeout := true;
     AddStrategy.order_timeout_seconds := EmptyString |}.

(** The record an edit click loads, [None] when the load fails. *)
Definition edit_record (r : ApiKeyForm.detail_response)
  : option ApiManagement.ApiKeyRecord :=
  match r with
  | ApiKeyForm.DetailResponse status (ApiKeyForm.Parsed apiKey) =>
      if ApiManagement.ok status then Some apiKey else None
  | _ => None
  end.

(** The option of the dropdown that stands for a record. *)
Definition option_of (apiKey : ApiManagement.ApiKeyRecord)
  : StrategyOptions.select_option :=
  (ApiManagement.id apiKey,
   ApiManagement.alias apiKey ++ " (" ++ ApiManagement.mode apiKey ++ ")").

(** A strategy whose state has no [average_entry_price] property. *)
Definition entryless_state : Dashboard.ActiveState :=
  {| Dashboard.is_running := true;
     Dashboard.current_position_quantity := Js.Num (Js.of_Z 5);
     Dashboard.average_entry_price := Js.Undefined;
     Dashboard.realized_pnl_usdt := Js.Num (Js.of_Z 2);
     Dashboard.total_invested_usdt := Js.Null |}.

Definition entryless_item : Dashboard.Item :=
  {| Dashboard.strategy_config := sample_config;
     Dashboard.active_state := Some entryless_state;
     Dashboard.current_market_price := Js.Num (Js.parseFloat "110.5") |}.

(** A position bought at 100 whose [total_invested_usdt] is null. *)
Definition uninvested_state : Dashboard.ActiveState :=
  {| Dashboard.is_running := true;
     Dashboard.current_position_quantity := Js.Num (Js.of_Z 5);
     Dashboard.average_entry_price := Js.Num (Js.of_Z 100);
     Dashboard.realized_pnl_usdt := Js.Null;
     Dashboard.total_invested_usdt := Js.Null |}.

Definition uninvested_item : Dashboard.Item :=
  {| Dashboard.strategy_config := sample_config;
     Dashboard.active_state := Some uninvested_state;
     Dashboard.current_market_price := Js.Num (Js.parseFloat "110.5") |}.

(** A short credential. *)
Definition short_key : ApiManagement.ApiKeyRecord :=
  {| ApiManagement.id := "4"; ApiManagement.alias := "test";
     ApiManagement.api_key := "abc";
     ApiManagement.secret_key := None;
     ApiManagement.mode := "paper";
     ApiManagement.connection_status := "error" |}.

(** The key page with the add form open and half filled. *)
Definition adding_page : ApiManagement.Page :=
  {| ApiManagement.tableBody := ApiManagement.row_html sample_key :: nil;
     ApiManagement.formTitle := "Add API Key";
     ApiManagement.fields :=
       {| ApiManagement.apiId_value := EmptyString;
          ApiManagement.alias_value := "second";
          ApiManagement.api_key_value := "AKIA0000";
          ApiManagement.secret_key_value := "s2";
          ApiManagement.mode_value := "paper" |};
     ApiManagement.secret_required := true;
     ApiManagement.secret_placeholder := EmptyString;
     ApiManagement.formDisplay := "block";
     ApiManagement.currentEditApiId := None;
     ApiManagement.console := nil |}.

Definition blank_fields : ApiManagement.FormFields :=
  {| ApiManagement.apiId_value := EmptyString;
     ApiManagement.alias_value := EmptyString;
     ApiManagement.api_key_value := EmptyString;
     ApiManagement.secret_key_value := EmptyString;
     ApiManagement.mode_value := "live" |}.

Definition new_key_entries : list (string * string) :=
  ("apiId", EmptyString) :: ("alias", "second") :: ("api_key", "AKIA0000")
  :: ("secret_key", "s2") :: ("mode", "paper") :: nil.

(** The JSON value [formData.forEach] gives a field: a number (null
    when [parseFloat] finds none) under a numeric name, the string itself
    otherwise. *)
Definition field_json (name value : string) : Js.json :=
  if AddStrategy.is_numeric name
  then Js.json_of_value (Js.VNum (Js.parseFloat value))
  else Js.JString value.

(** A response listing a connected key, a failing one and another
    connected one. *)
Definition mixed_keys : ApiManagement.fetched :=
  ApiManagement.Response 200
    (Some (sample_key :: short_key :: with_api_key "AKIA1111zzzz" sample_key :: nil)).

(** A strategy form on which no key was chosen. *)
Definition form_without_key : AddStrategy.Form :=
  {| AddStrategy.entries :=
       ("strategy_name", "grid") :: ("api_id", EmptyString)
       :: ("take_profit_percentage", "1.5") :: nil;
     AddStrategy.cyclic_execution := false;
     AddStrategy.cover_orders_participate_in_profit_taking := true;
     AddStrategy.enable_order_timeout := false;
     AddStrategy.order_timeout_seconds := "60" |}.

(** A form that also submits the checkboxes as ordinary fields, and a
    field named like the inherited accessor. *)
Definition form_with_odd_fields : AddStrategy.Form :=
  {| AddStrategy.entries :=
       ("api_id", "3") :: ("cyclic_execution", "on") :: ("__proto__", "x")
       :: ("trading_pair", "BTCUSDT") :: ("initial_order_amount", "25.5usdt")
       :: ("trading_pair", "ETHUSDT") :: nil;
     AddStrategy.cyclic_execution := false;
     AddStrategy.cover_orders_participate_in_profit_taking := true;
     AddStrategy.enable_order_timeout := true;
     AddStrategy.order_timeout_seconds := "60" |}.

(** The edit id the last add or edit click of a run of events leaves,
    [None] when the run has no such click. *)
Fixpoint last_mode (events : list ApiKeyForm.event) : option (option string) :=
  match events with
  | nil => None
  | e :: rest =>
      match last_mode rest with
      | Some m => Some m
      | None =>
          match e with
          | ApiKeyForm.ShowAdd => Some None
          | ApiKeyForm.EditClicked button_id _ => Some (Some button_id)
          | _ => None
          end
      end
  end.

(** A position with nothing invested whose figures, though finite,
    overflow when multiplied. *)
Definition overflowing_state : Dashboard.ActiveState :=
  {| Dashboard.is_running := true;
     Dashboard.current_position_quantity := Js.Num (Js.parseFloat "1e308");
     Dashboard.average_entry_price := Js.Num (Js.of_Z 100);
     Dashboard.realized_pnl_usdt := Js.Num (Js.of_Z 2);
     Dashboard.total_invested_usdt := Js.Num Js.pos_zero |}.

Definition overflowing_item : Dashboard.Item :=
  {| Dashboard.strategy_config := sample_config;
     Dashboard.active_state := Some overflowing_state;
     Dashboard.current_market_price := Js.Num (Js.parseFloat "1e308") |}.

(** A position with nothing invested whose state has no
    [average_entry_price] property. *)
Definition entryless_free_state : Dashboard.ActiveState :=
  {| Dashboard.is_running := true;
     Dashboard.current_position_quantity := Js.Num (Js.of_Z 5);
     Dashboard.average_entry_price := Js.Undefined;
     Dashboard.realized_pnl_usdt := Js.Num (Js.of_Z 2);
     Dashboard.total_invested_usdt := Js.Num Js.pos_zero |}.

Definition entryless_free_item : Dashboard.Item :=
  {| Dashboard.strategy_config := sample_config;
     Dashboard.active_state := Some entryless_free_state;
     Dashboard.current_market_price := Js.Num (Js.parseFloat "110.5") |}.

(** A refresh whose second item throws, followed by a transport
    failure. *)
Definition broken_refreshes : list DashboardRefresh.outcome :=
  DashboardRefresh.Response 200
    (Some (DashboardRefresh.Array
             (DashboardRefresh.Renders sample_item
              :: DashboardRefresh.Throws "config.api_id is null"
              :: DashboardRefresh.Renders free_item :: nil)))
  :: DashboardRefresh.Rejected "Failed to fetch" :: nil.

(* ===================================================================== *)
(** * Properties                                                          *)
(* ===================================================================== *)

(** ** Runtime lemmas *)

(** The runtime model on values whose JavaScript results are known. *)

Example toFixed_rounds_the_binary_value :
  Js.toFixed 2 (Js.parseFloat "1.005") = "1.00" /\
  Js.toFixed 2 (Js.parseFloat "8.345") = "8.35" /\
  Js.toFixed 0 (Js.parseFloat "2.5") = "3" /\
  Js.toFixed 2 (Js.parseFloat "-0.001") = "-0.00" /\
  Js.toFixed 2 Js.neg_zero = "0.00" /\
  Js.toFixed 4 (Js.parseFloat "123456.789") = "123456.7890" /\
  Js.toFixed 20 (Js.parseFloat "0.1") = "0.10000000000000000555".
Proof. vm_compute. repeat split. Qed.

Example toFixed_of_large_and_special_values :
  Js.toFixed 2 (Js.parseFloat "1e21") = "1e+21" /\
  Js.toFixed 2 (Js.of_Z (2 ^ 70)) = "1.1805916207174113e+21" /\
  Js.toFixed 2 (Js.parseFloat "123e23") = "1.23e+25" /\
  Js.toFixed 2 (Js.parseFloat "999999999999999999999") = "1e+21" /\
  Js.toFixed 2 (Js.parseFloat "1e400") = "Infinity" /\
  Js.toFixed 2 Js.NaN = "NaN".
Proof. vm_compute. repeat split. Qed.

Example parseFloat_reads_the_longest_literal :
  Js.parseFloat "  -12.5e1xyz" = Js.of_Z (-125) /\
  Js.parseFloat ".5" = Js.div (Js.of_Z 1) (Js.of_Z 2) /\
  Js.parseFloat "5." = Js.of_Z 5 /\
  Js.parseFloat "5e" = Js.of_Z 5 /\
  Js.parseFloat "0.1" = Js.div (Js.of_Z 1) (Js.of_Z 10) /\
  Js.parseFloat "-0" = Js.neg_zero /\
  Js.parseFloat "1e-400" = Js.pos_zero /\
  Js.parseFloat "-Infinity" = S754_infinity true.
Proof. vm_compute. repeat split. Qed.

Example parseFloat_of_blank_or_non_numeric :
  Js.parseFloat EmptyString = Js.NaN /\
  Js.parseFloat "   " = Js.NaN /\
  Js.parseFloat "abc" = Js.NaN /\
  Js.parseFloat "." = Js.NaN /\
  Js.parseFloat "-" = Js.NaN /\
  Js.parseFloat "e5" = Js.NaN.
Proof. vm_compute. repeat split. Qed.

Example substring_clamps_its_indices :
  Js.substring "0123456789abcdef" 0 8 = "01234567" /\
  Js.substring "abc" 0 8 = "abc" /\
  Js.substring_from "abcdefghij" (10 - 4) = "ghij" /\
  Js.substring_from "abc" (3 - 4) = "abc" /\
  Js.substring "abcdef" 4 1 = "bcd".
Proof. vm_compute. repeat split. Qed.

Lemma sub_zero_r (x : Js.number) : Js.sub x Js.pos_zero = x.
Proof. destruct x as [[|]|[|]| |s m e]; reflexivity. Qed.

Lemma gt_zero_is_number (v : Js.field) :
  Js.gt_zero v = true -> exists q, v = Js.Num q /\ Js.ltb Js.pos_zero q = true.
Proof.
  destruct v as [| |q]; cbn; try discriminate.
  intros H. exists q. split; [reflexivity|exact H].
Qed.

Lemma not_nullish_is_number (v : Js.field) :
  Js.not_nullish v = true -> exists p, v = Js.Num p.
Proof. destruct v as [| |p]; cbn; try discriminate. intros _. now exists p. Qed.


(** ** dashboard.js *)

Example sample_item_position :
  Dashboard.positionInfo sample_item
  = Dashboard.position_block "100.0000" "5.0000" "552.50".
Proof. vm_compute. reflexivity. Qed.

Example sample_item_pnl :
  Dashboard.pnlInfo sample_item
  = Dashboard.pnl_block "0.00" "profit" "52.50" "10.50".
Proof. vm_compute. reflexivity. Qed.





Example failed_first_fetch_rewrites_the_indicator :
  Dashboard.fetchDashboardData (Dashboard.Response 503 None) loading_page
  = {| Dashboard.container := Dashboard.Indicator :: nil;
       Dashboard.loadingMessage := Some "Error loading strategies.";
       Dashboard.console := "Error fetching dashboard data: HTTP error! status: 503" :: nil |}.
Proof. reflexivity. Qed.

Example empty_list_shows_the_invitation :
  Dashboard.container
    (Dashboard.fetchDashboardData (Dashboard.Response 200 (Some (Some nil))) loading_page)
  = Dashboard.Markup Dashboard.no_strategies :: nil.
Proof. reflexivity. Qed.

(** C6 as stated fails: on a page without the loading indicator a failed
    fetch (here HTTP 500) replaces the card that was rendered. *)
Lemma failed_fetch_replaces_cards_without_indicator :
  Dashboard.failed (Dashboard.Response 500 None) = true /\
  Dashboard.container (Dashboard.fetchDashboardData (Dashboard.Response 500 None) rendered_page)
  <> Dashboard.container rendered_page.
Proof. split; [reflexivity|]. cbn. discriminate. Qed.

(** C6, amended. For every failed dashboard fetch (transport error or a
    status outside 2xx) one diagnostic is logged and nothing else leaves
    the handler.  When the page has the loading indicator, the rendered
    cards stay as they were and the indicator's text becomes
    "Error loading strategies."; when it has none, the content of the
    container is replaced by the "Could not load strategy data" paragraph. *)
Theorem failed_fetch_is_fail_soft (r : Dashboard.fetched) (p : Dashboard.Page) :
  Dashboard.failed r = true ->
  (exists line,
     Dashboard.console (Dashboard.fetchDashboardData r p)
     = app (Dashboard.console p) (line :: nil)) /\
  match Dashboard.loadingMessage p with
  | Some _ =>
      Dashboard.container (Dashboard.fetchDashboardData r p) = Dashboard.container p /\
      Dashboard.loadingMessage (Dashboard.fetchDashboardData r p)
      = Some "Error loading strategies."
  | None =>
      Dashboard.container (Dashboard.fetchDashboardData r p)
      = Dashboard.Markup "<p>Could not load strategy data. Please try again later.</p>" :: nil /\
      Dashboard.loadingMessage (Dashboard.fetchDashboardData r p) = None
  end.
Proof.
  intros Hfailed.
  assert (Hcatch : exists d,
            Dashboard.fetchDashboardData r p = Dashboard.on_fetch_error d p).
  { destruct r as [reason|status body]; cbn in Hfailed |- *.
    - eauto.
    - apply Bool.negb_true_iff in Hfailed. rewrite Hfailed. eauto. }
  destruct Hcatch as (d & ->). unfold Dashboard.on_fetch_error.
  destruct (Dashboard.loadingMessage p); cbn; eauto.
Qed.

Lemma failed_fetch_is_fail_soft_witness :
  (exists line,
     Dashboard.console
       (Dashboard.fetchDashboardData (Dashboard.Rejected "Failed to fetch")
          rendered_page_with_indicator)
     = app nil (line :: nil)) /\
  Dashboard.container
    (Dashboard.fetchDashboardData (Dashboard.Rejected "Failed to fetch")
       rendered_page_with_indicator)
  = Dashboard.render_card sample_item :: nil /\
  Dashboard.loadingMessage
    (Dashboard.fetchDashboardData (Dashboard.Rejected "Failed to fetch")
       rendered_page_with_indicator)
  = Some "Error loading strategies.".
Proof.
  exact (failed_fetch_is_fail_soft (Dashboard.Rejected "Failed to fetch")
           rendered_page_with_indicator eq_refl).
Defined.

(** ** api_management.js *)

Section StringFacts.

Lemma append_cons (c : ascii) (s t : string) : String c s ++ t = String c (s ++ t).
Proof. reflexivity. Qed.

Lemma length_append (s t : string) :
  String.length (s ++ t) = (String.length s + String.length t)%nat.
Proof.
  induction s as [|c s IH]; [reflexivity|].
  rewrite append_cons. cbn [String.length]. now rewrite IH.
Qed.

Lemma append_assoc (s t u : string) : (s ++ t) ++ u = s ++ t ++ u.
Proof.
  induction s as [|c s IH]; [reflexivity|].
  rewrite !append_cons. now rewrite IH.
Qed.

Lemma substring_whole (s : string) : String.substring 0 (String.length s) s = s.
Proof. induction s as [|c s IH]; cbn; [reflexivity|now rewrite IH]. Qed.

Lemma substring_head (s t : string) :
  String.substring 0 (String.length s) (s ++ t) = s.
Proof.
  induction s as [|c s IH]; [now destruct t|].
  rewrite append_cons. cbn. now rewrite IH.
Qed.

Lemma substring_tail (s t : string) :
  String.substring (String.length s) (String.length t) (s ++ t) = t.
Proof.
  induction s as [|c s IH]; [apply substring_whole|].
  rewrite append_cons. cbn. exact IH.
Qed.

(** A count that runs past the end of the string is cut there. *)
Lemma substring_clip (s : string) :
  forall n m : nat,
    String.substring n (Nat.min m (String.length s - n)) s = String.substring n m s.
Proof.
  induction s as [|c s IH]; intros n m.
  - destruct n, m; reflexivity.
  - destruct n as [|n].
    + destruct m as [|m]; [reflexivity|].
      cbn. f_equal. rewrite <- (IH 0%nat m), Nat.sub_0_r. reflexivity.
    + cbn. apply IH.
Qed.

End StringFacts.

Lemma keyDisplay_first_and_last (r : ApiManagement.ApiKeyRecord) :
  let key := ApiManagement.api_key r in
  ApiManagement.keyDisplay r
  = String.substring 0 4 key ++ "..."
      ++ String.substring (String.length key - 4) 4 key.
Proof.
  cbv zeta. unfold ApiManagement.keyDisplay, Js.substring_from, Js.substring, Js.clamp.
  set (key := ApiManagement.api_key r). set (len := String.length key).
  replace (Z.to_nat 0) with 0%nat by reflexivity.
  replace (Z.to_nat 4) with 4%nat by reflexivity.
  replace (Z.to_nat (Z.of_nat len - 4)) with (len - 4)%nat by lia.
  rewrite Nat2Z.id.
  replace (Nat.min 0 len) with 0%nat by lia.
  replace (Nat.min 0 (Nat.min 4 len)) with 0%nat by lia.
  replace (Nat.max 0 (Nat.min 4 len) - 0)%nat with (Nat.min 4 (len - 0)) by lia.
  replace (Nat.min (Nat.min (len - 4) len) (Nat.min len len)) with (len - 4)%nat by lia.
  replace (Nat.max (Nat.min (len - 4) len) (Nat.min len len) - (len - 4))%nat
    with (Nat.min 4 (len - (len - 4))) by lia.
  unfold len. rewrite !substring_clip. reflexivity.
Qed.


(** C8. When the API-key list fetch fails (transport error or a status
    outside 2xx, such as 500), the table body becomes the single row
    "Error loading API keys." and the rest of the page is as before: the
    form's fields, title, visibility, the state of the secret input and
    the current edit id. *)
Theorem failed_key_fetch_leaves_form_untouched
    (r : ApiManagement.fetched) (p : ApiManagement.Page) :
  ApiManagement.failed r = true ->
  let p' := ApiManagement.fetchApiKeys r p in
  ApiManagement.tableBody p'
  = ("<td colspan=" ++ Js.dq ++ "5" ++ Js.dq ++ ">Error loading API keys.</td>") :: nil /\
  ApiManagement.fields p' = ApiManagement.fields p /\
  ApiManagement.formDisplay p' = ApiManagement.formDisplay p /\
  ApiManagement.currentEditApiId p' = ApiManagement.currentEditApiId p /\
  ApiManagement.formTitle p' = ApiManagement.formTitle p /\
  ApiManagement.secret_required p' = ApiManagement.secret_required p /\
  ApiManagement.secret_placeholder p' = ApiManagement.secret_placeholder p.
Proof.
  intros Hfailed p'.
  assert (Hcatch : exists d, p' = ApiManagement.on_fetch_error d p).
  { subst p'. destruct r as [reason|status body]; cbn in Hfailed |- *.
    - eauto.
    - apply Bool.negb_true_iff in Hfailed. rewrite Hfailed. eauto. }
  destruct Hcatch as (d & ->). cbn. repeat split.
Qed.

Lemma failed_key_fetch_leaves_form_untouched_witness :
  let p' := ApiManagement.fetchApiKeys (ApiManagement.Response 500 None) editing_page in
  ApiManagement.tableBody p'
  = ("<td colspan=" ++ Js.dq ++ "5" ++ Js.dq ++ ">Error loading API keys.</td>") :: nil /\
  ApiManagement.fields p' = ApiManagement.fields editing_page /\
  ApiManagement.formDisplay p' = "block" /\
  ApiManagement.currentEditApiId p' = Some "3" /\
  ApiManagement.formTitle p' = "Edit API Key" /\
  ApiManagement.secret_required p' = false /\
  ApiManagement.secret_placeholder p' = "Enter new secret to change".
Proof.
  exact (failed_key_fetch_leaves_form_untouched
           (ApiManagement.Response 500 None) editing_page eq_refl).
Defined.

(** ** Objects built from form entries *)

Lemma fold_insert_lookup (k : string) (entries : list (string * string)) :
  forall acc : gmap string string,
    fold_left (fun obj kv => <[fst kv := snd kv]> obj) entries acc !! k
    = match Js.last_value k entries with
      | Some v => Some v
      | None => acc !! k
      end.
Proof.
  induction entries as [|[k' v'] rest IH]; intros acc; [reflexivity|].
  cbn [fold_left Js.last_value fst snd]. rewrite IH.
  destruct (Js.last_value k rest); [reflexivity|].
  destruct (String.eqb_spec k' k) as [->|Hne].
  - apply lookup_insert_eq.
  - now apply lookup_insert_ne.
Qed.

Lemma fromEntries_lookup (k : string) (entries : list (string * string)) :
  Js.fromEntries entries !! k = Js.last_value k entries.
Proof.
  unfold Js.fromEntries. rewrite fold_insert_lookup.
  destruct (Js.last_value k entries); [reflexivity|apply lookup_empty].
Qed.

Lemma set_property_own (k : string) (v : Js.value) (obj : gmap string Js.value) :
  k <> "__proto__" -> Js.set_property k v obj = <[k := v]> obj.
Proof.
  intros Hk. unfold Js.set_property.
  destruct (String.eqb_spec k "__proto__"); [contradiction|reflexivity].
Qed.

Lemma set_property_other (k' k : string) (v : Js.value) (obj : gmap string Js.value) :
  k' <> k -> Js.set_property k' v obj !! k = obj !! k.
Proof.
  intros Hne. unfold Js.set_property.
  destruct (String.eqb k' "__proto__"); [reflexivity|now apply lookup_insert_ne].
Qed.

(** C4. For every submission of the API-key form in edit mode (the
    current edit id is set and not empty) a PUT request goes out; when
    the secret field is blank its JSON body has no key [secret_key], and
    when the field holds a value the body has [secret_key] with exactly
    that value. *)
Theorem edit_submission_sends_secret_only_when_entered
    (i : string) (entries : list (string * string)) :
  ApiManagement.edit_mode (Some i) = true ->
  exists req : Js.Request,
    ApiManagement.on_submit (Some i) entries = Js.Sent req /\
    Js.method req = Js.PUT /\
    match Js.last_value "secret_key" entries with
    | Some secret =>
        if Js.truthy_string secret
        then Js.body req !! "secret_key" = Some (Js.JString secret)
        else Js.body req !! "secret_key" = None
    | None => Js.body req !! "secret_key" = None
    end.
Proof.
  cbn [ApiManagement.edit_mode]. intros Hi.
  unfold ApiManagement.on_submit. rewrite Hi.
  eexists. split; [reflexivity|]. split; [reflexivity|].
  cbn [Js.body]. unfold ApiManagement.json_body, Js.stringify, ApiManagement.secret_missing.
  rewrite (fromEntries_lookup "secret_key").
  assert (Hother : "apiId" <> "secret_key") by discriminate.
  destruct (Js.last_value "secret_key" entries) as [secret|] eqn:Hsecret.
  - destruct (Js.truthy_string secret); cbn [negb];
      rewrite !lookup_fmap, (lookup_delete_ne _ _ _ Hother).
    + rewrite fromEntries_lookup, Hsecret. reflexivity.
    + rewrite lookup_delete_eq. reflexivity.
  - rewrite !lookup_fmap, (lookup_delete_ne _ _ _ Hother), lookup_delete_eq. reflexivity.
Qed.

Lemma edit_submission_sends_secret_only_when_entered_witness :
  (exists req : Js.Request,
     ApiManagement.on_submit (Some "3") edit_changing_secret = Js.Sent req /\
     Js.method req = Js.PUT /\
     Js.body req !! "secret_key" = Some (Js.JString " n3w ")) /\
  (exists req : Js.Request,
     ApiManagement.on_submit (Some "3") edit_keeping_secret = Js.Sent req /\
     Js.method req = Js.PUT /\
     Js.body req !! "secret_key" = None).
Proof.
  split.
  - exact (edit_submission_sends_secret_only_when_entered "3" edit_changing_secret eq_refl).
  - exact (edit_submission_sends_secret_only_when_entered "3" edit_keeping_secret eq_refl).
Defined.

(** ** add_strategy.js *)

Lemma build_data_timeout (f : AddStrategy.Form) :
  AddStrategy.build_data f !! "order_timeout_seconds"
  = if AddStrategy.enable_order_timeout f
    then Some (Js.VNum (Js.parseFloat (AddStrategy.order_timeout_seconds f)))
    else None.
Proof.
  unfold AddStrategy.build_data.
  rewrite (set_property_own "enable_order_timeout") by discriminate.
  rewrite lookup_insert_eq. cbn [Js.truthy_property Js.truthy].
  destruct (AddStrategy.enable_order_timeout f); cbn [negb].
  - rewrite (set_property_own "order_timeout_seconds") by discriminate.
    apply lookup_insert_eq.
  - apply lookup_delete_eq.
Qed.

Lemma sent_body (f : AddStrategy.Form) (req : Js.Request) :
  AddStrategy.on_submit f = Js.Sent req ->
  Js.body req = Js.stringify (AddStrategy.build_data f).
Proof.
  unfold AddStrategy.on_submit.
  destruct (negb _); intros H; [discriminate H|].
  injection H as <-. reflexivity.
Qed.

(** C5. For every add-strategy submission that sends a request: with
    [enable_order_timeout] unchecked the JSON payload has no key
    [order_timeout_seconds]; with it checked the payload has the key,
    holding what [parseFloat] makes of the seconds input. *)
Theorem timeout_seconds_sent_only_when_enabled
    (f : AddStrategy.Form) (req : Js.Request) :
  AddStrategy.on_submit f = Js.Sent req ->
  (AddStrategy.enable_order_timeout f = false ->
     Js.body req !! "order_timeout_seconds" = None) /\
  (AddStrategy.enable_order_timeout f = true ->
     Js.body req !! "order_timeout_seconds"
     = Some (Js.json_of_value
               (Js.VNum (Js.parseFloat (AddStrategy.order_timeout_seconds f))))).
Proof.
  intros Hsent. rewrite (sent_body f req Hsent). unfold Js.stringify.
  rewrite lookup_fmap, build_data_timeout.
  split; intros ->; reflexivity.
Qed.

Lemma timeout_seconds_sent_only_when_enabled_witness :
  (exists req, AddStrategy.on_submit form_without_timeout = Js.Sent req /\
     Js.body req !! "order_timeout_seconds" = None) /\
  (exists req, AddStrategy.on_submit form_with_blank_timeout = Js.Sent req /\
     Js.body req !! "order_timeout_seconds" = Some Js.JNull).
Proof.
  split; eexists; (split; [reflexivity|]).
  - exact (proj1 (timeout_seconds_sent_only_when_enabled form_without_timeout _ eq_refl)
             eq_refl).
  - exact (proj2 (timeout_seconds_sent_only_when_enabled form_with_blank_timeout _ eq_refl)
             eq_refl).
Defined.

Lemma numeric_key_is_plain (k : string) :
  AddStrategy.is_numeric k = true ->
  AddStrategy.is_checkbox k = false /\ k <> "__proto__".
Proof.
  intros Hnum. split.
  - unfold AddStrategy.is_checkbox.
    destruct (String.eqb_spec k "cyclic_execution") as [->|_];
      [vm_compute in Hnum; discriminate Hnum|].
    destruct (String.eqb_spec k "cover_orders_participate_in_profit_taking") as [->|_];
      [vm_compute in Hnum; discriminate Hnum|].
    destruct (String.eqb_spec k "enable_order_timeout") as [->|_];
      [vm_compute in Hnum; discriminate Hnum|].
    reflexivity.
  - intros ->. vm_compute in Hnum. discriminate Hnum.
Qed.

Lemma not_checkbox (k : string) :
  AddStrategy.is_checkbox k = false ->
  "cyclic_execution" <> k /\
  "cover_orders_participate_in_profit_taking" <> k /\
  "enable_order_timeout" <> k.
Proof.
  unfold AddStrategy.is_checkbox. intros H.
  apply Bool.orb_false_iff in H as [H H3].
  apply Bool.orb_false_iff in H as [H1 H2].
  apply String.eqb_neq in H1, H2, H3. repeat split; congruence.
Qed.

(** What [formData.forEach] leaves under a numeric key. *)
Lemma collect_lookup_numeric (k : string) (l : list (string * string)) :
  AddStrategy.is_numeric k = true ->
  forall acc : gmap string Js.value,
    fold_left AddStrategy.collect l acc !! k
    = match Js.last_value k l with
      | Some v => Some (Js.VNum (Js.parseFloat v))
      | None => acc !! k
      end.
Proof.
  intros Hnum. destruct (numeric_key_is_plain k Hnum) as [Hbox Hproto].
  induction l as [|[k' v'] rest IH]; intros acc; [reflexivity|].
  cbn [fold_left Js.last_value]. rewrite IH.
  destruct (Js.last_value k rest); [reflexivity|].
  unfold AddStrategy.collect.
  destruct (String.eqb_spec k' k) as [->|Hne].
  - rewrite Hbox, Hnum, set_property_own by exact Hproto.
    apply lookup_insert_eq.
  - destruct (AddStrategy.is_checkbox k'); [reflexivity|].
    destruct (AddStrategy.is_numeric k'); now apply set_property_other.
Qed.

Lemma build_data_numeric (f : AddStrategy.Form) (k v : string) :
  AddStrategy.is_numeric k = true ->
  k <> "order_timeout_seconds" ->
  Js.last_value k (AddStrategy.entries f) = Some v ->
  AddStrategy.build_data f !! k = Some (Js.VNum (Js.parseFloat v)).
Proof.
  intros Hnum Hk Hv.
  destruct (numeric_key_is_plain k Hnum) as [Hbox _].
  destruct (not_checkbox k Hbox) as (H1 & H2 & H3).
  assert (Hk' : "order_timeout_seconds" <> k) by congruence.
  unfold AddStrategy.build_data.
  destruct (negb _).
  - rewrite (lookup_delete_ne _ _ _ Hk').
    rewrite !set_property_other by assumption.
    rewrite (collect_lookup_numeric k _ Hnum), Hv. reflexivity.
  - rewrite !set_property_other by assumption.
    rewrite (collect_lookup_numeric k _ Hnum), Hv. reflexivity.
Qed.

(** C9 as stated fails: with the timeout switched off, the blank field
    [order_timeout_seconds], whose name holds the marker "seconds", is
    not in the payload at all. *)
Lemma blank_timeout_field_is_dropped_when_disabled :
  AddStrategy.is_numeric "order_timeout_seconds" = true /\
  Js.last_value "order_timeout_seconds" (AddStrategy.entries form_without_timeout)
  = Some EmptyString /\
  Js.parseFloat EmptyString = Js.NaN /\
  exists req,
    AddStrategy.on_submit form_without_timeout = Js.Sent req /\
    Js.body req !! "order_timeout_seconds" = None /\
    Js.body req !! "order_timeout_seconds" <> Some Js.JNull.
Proof.
  split; [reflexivity|]. split; [reflexivity|]. split; [reflexivity|].
  eexists. split; [reflexivity|]. split; [reflexivity|]. vm_compute. discriminate.
Qed.

(** C9, amended. For every add-strategy submission that sends a request,
    a form field other than [order_timeout_seconds] whose name holds one
    of the markers percentage, amount, multiplier, count, seconds and
    whose value is blank or not numeric ([parseFloat] gives NaN) is in the
    JSON payload with value null.  [order_timeout_seconds] itself is sent
    as null when [enable_order_timeout] is checked and the seconds input
    is blank or not numeric. *)
Theorem blank_numeric_fields_are_sent_as_null
    (f : AddStrategy.Form) (req : Js.Request) :
  AddStrategy.on_submit f = Js.Sent req ->
  (forall k v : string,
     AddStrategy.is_numeric k = true ->
     k <> "order_timeout_seconds" ->
     Js.last_value k (AddStrategy.entries f) = Some v ->
     Js.parseFloat v = Js.NaN ->
     Js.body req !! k = Some Js.JNull) /\
  (AddStrategy.enable_order_timeout f = true ->
   Js.parseFloat (AddStrategy.order_timeout_seconds f) = Js.NaN ->
   Js.body req !! "order_timeout_seconds" = Some Js.JNull).
Proof.
  intros Hsent. rewrite (sent_body f req Hsent). unfold Js.stringify. split.
  - intros k v Hnum Hk Hv Hnan.
    rewrite lookup_fmap, (build_data_numeric f k v Hnum Hk Hv), Hnan. reflexivity.
  - intros Hon Hnan.
    rewrite lookup_fmap, build_data_timeout, Hon, Hnan. reflexivity.
Qed.

Lemma blank_numeric_fields_are_sent_as_null_witness :
  exists req,
    AddStrategy.on_submit form_with_blank_timeout = Js.Sent req /\
    Js.body req !! "max_cover_count" = Some Js.JNull /\
    Js.body req !! "order_timeout_seconds" = Some Js.JNull.
Proof.
  eexists. split; [reflexivity|]. split.
  - exact (proj1 (blank_numeric_fields_are_sent_as_null form_with_blank_timeout _ eq_refl)
             "max_cover_count" EmptyString eq_refl ltac:(discriminate) eq_refl eq_refl).
  - exact (proj2 (blank_numeric_fields_are_sent_as_null form_with_blank_timeout _ eq_refl)
             eq_refl eq_refl).
Defined.

(* ===================================================================== *)
(** * Further properties of the controllers                               *)
(* ===================================================================== *)

(** ** dashboard.js: refreshes *)

Lemma fetch_renders_or_catches (r : Dashboard.fetched) (p : Dashboard.Page) :
  (exists data, DashboardControls.rendered_data r = Some data /\
     Dashboard.fetchDashboardData r p = Dashboard.renderStrategyCards data p)
  \/ (DashboardControls.rendered_data r = None /\
      exists diagnostic,
        Dashboard.fetchDashboardData r p = Dashboard.on_fetch_error diagnostic p).
Proof.
  destruct r as [reason|status [data|]]; cbn.
  - right. eauto.
  - destruct (Dashboard.ok status); [left|right]; eauto.
  - right. destruct (Dashboard.ok status); eauto.
Qed.

Lemma poll_cons (r : Dashboard.fetched) (rest : list Dashboard.fetched)
    (p : Dashboard.Page) :
  DashboardControls.poll (r :: rest) p
  = DashboardControls.poll rest (Dashboard.fetchDashboardData r p).
Proof. reflexivity. Qed.


(** X2. On a page without the loading indicator, what the container
    holds after a run of refreshes is decided by the last outcome alone:
    its cards when it succeeded, the "Could not load" paragraph when it
    failed, whatever was rendered before. *)
Theorem last_refresh_decides_without_indicator
    (outcomes : list Dashboard.fetched) (r : Dashboard.fetched) (p : Dashboard.Page) :
  Dashboard.loadingMessage p = None ->
  Dashboard.container (DashboardControls.poll (app outcomes (r :: nil)) p)
  = match DashboardControls.rendered_data r with
    | Some data => Dashboard.container (Dashboard.renderStrategyCards data p)
    | None => Dashboard.Markup Dashboard.load_failed_markup :: nil
    end.
Proof.
  revert p. induction outcomes as [|r0 rest IH]; intros p Hnone.
  - cbn [app]. rewrite poll_cons. cbn [DashboardControls.poll fold_left].
    destruct (fetch_renders_or_catches r p) as [(data & -> & ->)|(-> & d & ->)];
      [reflexivity|].
    unfold Dashboard.on_fetch_error. rewrite Hnone. reflexivity.
  - cbn [app]. rewrite poll_cons.
    assert (Hstill : Dashboard.loadingMessage (Dashboard.fetchDashboardData r0 p) = None).
    { destruct (fetch_renders_or_catches r0 p) as [(data & _ & ->)|(_ & d & ->)];
        [exact Hnone|].
      unfold Dashboard.on_fetch_error. rewrite Hnone. reflexivity. }
    rewrite (IH _ Hstill).
    destruct (DashboardControls.rendered_data r); reflexivity.
Qed.

Lemma last_refresh_decides_without_indicator_witness :
  Dashboard.container
    (DashboardControls.poll
       (app (Dashboard.Response 200 (Some (Some (sample_item :: nil))) :: nil)
            (Dashboard.Rejected "Failed to fetch" :: nil))
       rendered_page)
  = Dashboard.Markup Dashboard.load_failed_markup :: nil.
Proof.
  exact (last_refresh_decides_without_indicator
           (Dashboard.Response 200 (Some (Some (sample_item :: nil))) :: nil)
           (Dashboard.Rejected "Failed to fetch") rendered_page eq_refl).
Defined.

(** ** dashboard.js: the run/pause button *)

(** X3. For every rendered card the action a click on its run/pause
    button asks for is the same whether it is read from the status text
    of the card or, the status element missing, from the button's own
    text: "pause" when the strategy is running, "start" when it is paused
    or was never started. *)
Theorem run_pause_action_follows_state (item : Dashboard.Item) :
  DashboardControls.action (Some (Dashboard.statusText item))
    (Dashboard.runPauseButtonText item)
  = DashboardControls.action None (Dashboard.runPauseButtonText item) /\
  DashboardControls.action (Some (Dashboard.statusText item))
    (Dashboard.runPauseButtonText item)
  = match Dashboard.active_state item with
    | Some state => if Dashboard.is_running state then "pause" else "start"
    | None => "start"
    end.
Proof.
  unfold Dashboard.statusText, Dashboard.runPauseButtonText.
  destruct (Dashboard.active_state item) as [state|];
    [destruct (Dashboard.is_running state)|]; split; reflexivity.
Qed.

(** ** dashboard.js: figures from incomplete states *)

Lemma hundred_is_finite :
  exists m e, Js.of_Z 100 = S754_finite false m e.
Proof. vm_compute. eauto. Qed.



(** ** api_management.js: the form and its modes *)

Lemma fetchApiKeys_sets_table (r : ApiManagement.fetched) (p : ApiManagement.Page) :
  exists rows lines, ApiManagement.fetchApiKeys r p = ApiManagement.set_table rows lines p.
Proof.
  destruct r as [reason|status [keys|]]; cbn; unfold ApiManagement.on_fetch_error;
    try destruct (ApiManagement.ok status); eauto.
Qed.

Lemma step_title_and_mode (defaults : ApiManagement.FormFields)
    (p : ApiManagement.Page) (e : ApiKeyForm.event) :
  let p' := ApiKeyForm.step defaults p e in
  (ApiManagement.formTitle p' = ApiManagement.formTitle p /\
   ApiManagement.currentEditApiId p' = ApiManagement.currentEditApiId p)
  \/ (ApiManagement.formTitle p' = "Add API Key" /\
      ApiManagement.currentEditApiId p' = None)
  \/ (ApiManagement.formTitle p' = "Edit API Key" /\
      exists i, ApiManagement.currentEditApiId p' = Some i).
Proof.
  destruct e as [| |button_id r|r|r refresh|confirmed r refresh]; cbn.
  - right. left. split; reflexivity.
  - left. split; reflexivity.
  - right. right.
    destruct r as [reason|status [message|apiKey]]; cbn;
      try destruct (ApiManagement.ok status); cbn; eauto.
  - left. destruct (fetchApiKeys_sets_table r p) as (rows & lines & ->).
    split; reflexivity.
  - left. destruct (fetchApiKeys_sets_table refresh p) as (rows & lines & Hf).
    destruct r as [reason|status [message|detail]]; cbn;
      try destruct (ApiManagement.ok status); cbn; rewrite ?Hf; split; reflexivity.
  - left. destruct (fetchApiKeys_sets_table refresh p) as (rows & lines & Hf).
    destruct confirmed; [|split; reflexivity].
    destruct r as [reason|status [message|detail]]; cbn;
      try destruct (ApiManagement.ok status); cbn; rewrite ?Hf; split; reflexivity.
Qed.

Lemma step_keeps_title_telling (defaults : ApiManagement.FormFields)
    (p : ApiManagement.Page) (e : ApiKeyForm.event) :
  ApiKeyForm.title_tells_mode p ->
  ApiKeyForm.title_tells_mode (ApiKeyForm.step defaults p e).
Proof.
  unfold ApiKeyForm.title_tells_mode. intros Hinv.
  destruct (step_title_and_mode defaults p e) as [[-> ->]|[[-> ->]|[-> (i & ->)]]].
  - exact Hinv.
  - split; [discriminate|congruence].
  - split; [discriminate|reflexivity].
Qed.

(** X6. Whatever the user and the server do (add, cancel, edit clicks
    whose load succeeds or fails, list refreshes, saves and deletes that
    succeed or fail), the form's title keeps telling its mode: it reads
    "Edit API Key" exactly when an edit id is held.  So a submission
    that goes out as a PUT always comes from a form titled
    "Edit API Key". *)
Theorem title_keeps_telling_the_mode
    (defaults : ApiManagement.FormFields) (events : list ApiKeyForm.event)
    (p : ApiManagement.Page) :
  ApiKeyForm.title_tells_mode p ->
  let p' := ApiKeyForm.run defaults events p in
  ApiKeyForm.title_tells_mode p' /\
  forall entries req,
    ApiManagement.on_submit (ApiManagement.currentEditApiId p') entries = Js.Sent req ->
    Js.method req = Js.PUT ->
    ApiManagement.formTitle p' = "Edit API Key".
Proof.
  intros Hinv p'.
  assert (Hrun : ApiKeyForm.title_tells_mode p').
  { subst p'. revert p Hinv. induction events as [|e rest IH]; intros p Hinv.
    - exact Hinv.
    - cbn. apply IH. now apply step_keeps_title_telling. }
  split; [exact Hrun|].
  intros entries req Hsent Hput. apply Hrun.
  unfold ApiManagement.on_submit in Hsent.
  destruct (ApiManagement.currentEditApiId p') as [i|]; [discriminate|].
  destruct (ApiManagement.secret_missing _); [discriminate Hsent|].
  injection Hsent as <-. discriminate Hput.
Qed.

Lemma title_keeps_telling_the_mode_witness :
  let p' :=
    ApiKeyForm.run blank_fields
      (ApiKeyForm.EditClicked "3" (ApiKeyForm.DetailRejected "Failed to fetch")
       :: ApiKeyForm.Cancel :: nil) adding_page in
  ApiKeyForm.title_tells_mode p' /\
  forall entries req,
    ApiManagement.on_submit (ApiManagement.currentEditApiId p') entries = Js.Sent req ->
    Js.method req = Js.PUT ->
    ApiManagement.formTitle p' = "Edit API Key".
Proof.
  apply (title_keeps_telling_the_mode blank_fields
           (ApiKeyForm.EditClicked "3" (ApiKeyForm.DetailRejected "Failed to fetch")
            :: ApiKeyForm.Cancel :: nil) adding_page).
  split; [discriminate|intros H; now contradiction H].
Defined.

(** X7. An edit click sets the edit id and the title before the record
    is asked for, and a failed load does not take them back: the click
    then raises one alert and leaves the fields and the visibility of the
    form as they were, yet the page is in edit mode, so that whatever is
    submitted next goes out as a PUT to the clicked record. *)
Theorem failed_edit_load_leaves_edit_mode
    (defaults : ApiManagement.FormFields) (button_id : string)
    (r : ApiKeyForm.detail_response) (p : ApiManagement.Page) :
  edit_record r = None ->
  Js.truthy_string button_id = true ->
  let p' := fst (ApiKeyForm.on_edit_click button_id r p) in
  snd (ApiKeyForm.on_edit_click button_id r p)
  = Some "Error loading API key for editing." /\
  ApiManagement.fields p' = ApiManagement.fields p /\
  ApiManagement.formDisplay p' = ApiManagement.formDisplay p /\
  ApiManagement.tableBody p' = ApiManagement.tableBody p /\
  ApiManagement.formTitle p' = "Edit API Key" /\
  ApiManagement.currentEditApiId p' = Some button_id /\
  forall entries, exists req,
    ApiManagement.on_submit (ApiManagement.currentEditApiId p') entries = Js.Sent req /\
    Js.method req = Js.PUT /\
    Js.url req = "/apis/" ++ button_id.
Proof.
  intros Hfail Hid p'.
  assert (Hcatch : exists d,
            ApiKeyForm.on_edit_click button_id r p
            = ApiKeyForm.on_edit_failed button_id d p).
  { destruct r as [reason|status [message|apiKey]]; cbn in Hfail |- *;
      try destruct (ApiManagement.ok status); try discriminate Hfail; eauto. }
  destruct Hcatch as (d & Hclick). subst p'. rewrite Hclick. cbn.
  repeat split. intros entries. rewrite Hid. eauto.
Qed.

Lemma failed_edit_load_leaves_edit_mode_witness :
  let p' := fst (ApiKeyForm.on_edit_click "3"
                   (ApiKeyForm.DetailResponse 500 (ApiKeyForm.Unparsable "Unexpected token"))
                   adding_page) in
  snd (ApiKeyForm.on_edit_click "3"
         (ApiKeyForm.DetailResponse 500 (ApiKeyForm.Unparsable "Unexpected token"))
         adding_page)
  = Some "Error loading API key for editing." /\
  ApiManagement.fields p' = ApiManagement.fields adding_page /\
  ApiManagement.formDisplay p' = "block" /\
  ApiManagement.tableBody p' = ApiManagement.tableBody adding_page /\
  ApiManagement.formTitle p' = "Edit API Key" /\
  ApiManagement.currentEditApiId p' = Some "3" /\
  forall entries, exists req,
    ApiManagement.on_submit (ApiManagement.currentEditApiId p') entries = Js.Sent req /\
    Js.method req = Js.PUT /\
    Js.url req = "/apis/" ++ "3".
Proof.
  exact (failed_edit_load_leaves_edit_mode blank_fields "3"
           (ApiKeyForm.DetailResponse 500 (ApiKeyForm.Unparsable "Unexpected token"))
           adding_page eq_refl eq_refl).
Defined.

(** ** api_management.js: what a submission carries *)

Lemma json_body_lookup (data : gmap string string) (k : string) :
  k <> "apiId" ->
  ApiManagement.json_body data !! k = Js.JString <$> data !! k.
Proof.
  intros Hk. unfold ApiManagement.json_body, Js.stringify.
  rewrite !lookup_fmap, lookup_delete_ne by congruence.
  destruct (data !! k); reflexivity.
Qed.

Lemma json_body_without_apiId (data : gmap string string) :
  ApiManagement.json_body data !! "apiId" = None.
Proof.
  unfold ApiManagement.json_body, Js.stringify.
  rewrite !lookup_fmap, lookup_delete_eq. reflexivity.
Qed.

(** X8. In create mode (no edit id, or an empty one) the form sends
    nothing and alerts "Secret Key is required for new API Key." when the
    secret is blank or missing; otherwise it sends a POST to [/apis/]
    whose body carries the secret as entered. *)
Theorem new_key_needs_a_secret
    (currentEditApiId : option string) (entries : list (string * string)) :
  ApiManagement.edit_mode currentEditApiId = false ->
  match Js.last_value "secret_key" entries with
  | Some secret =>
      if Js.truthy_string secret then
        exists req,
          ApiManagement.on_submit currentEditApiId entries = Js.Sent req /\
          Js.method req = Js.POST /\ Js.url req = "/apis/" /\
          Js.body req !! "secret_key" = Some (Js.JString secret)
      else ApiManagement.on_submit currentEditApiId entries
           = Js.Alerted "Secret Key is required for new API Key."
  | None => ApiManagement.on_submit currentEditApiId entries
            = Js.Alerted "Secret Key is required for new API Key."
  end.
Proof.
  intros Hmode.
  assert (Hcreate : ApiManagement.on_submit currentEditApiId entries
                    = if ApiManagement.secret_missing (Js.fromEntries entries)
                      then Js.Alerted "Secret Key is required for new API Key."
                      else Js.Sent {| Js.url := "/apis/"; Js.method := Js.POST;
                                      Js.body := ApiManagement.json_body
                                                   (Js.fromEntries entries) |}).
  { unfold ApiManagement.on_submit.
    destruct currentEditApiId as [i|]; [|reflexivity].
    cbn in Hmode. rewrite Hmode. reflexivity. }
  rewrite Hcreate. unfold ApiManagement.secret_missing.
  rewrite (fromEntries_lookup "secret_key").
  destruct (Js.last_value "secret_key" entries) as [secret|] eqn:Hsecret; [|reflexivity].
  destruct (Js.truthy_string secret); cbn [negb]; [|reflexivity].
  eexists. split; [reflexivity|]. repeat split. cbn [Js.body].
  rewrite json_body_lookup by discriminate.
  rewrite fromEntries_lookup, Hsecret. reflexivity.
Qed.

Lemma new_key_needs_a_secret_witness :
  (exists req,
     ApiManagement.on_submit None new_key_entries = Js.Sent req /\
     Js.method req = Js.POST /\ Js.url req = "/apis/" /\
     Js.body req !! "secret_key" = Some (Js.JString "s2")) /\
  ApiManagement.on_submit (Some EmptyString) edit_keeping_secret
  = Js.Alerted "Secret Key is required for new API Key.".
Proof.
  split.
  - exact (new_key_needs_a_secret None new_key_entries eq_refl).
  - exact (new_key_needs_a_secret (Some EmptyString) edit_keeping_secret eq_refl).
Defined.

(** X9. Whenever the key form sends a request, in either mode, its JSON
    body never has the key [apiId] (the hidden input is dropped), and
    every other field but [secret_key] is in it as the string the form
    submitted, absent when the form has no such field. *)
Theorem key_form_body_mirrors_the_fields
    (currentEditApiId : option string) (entries : list (string * string))
    (req : Js.Request) :
  ApiManagement.on_submit currentEditApiId entries = Js.Sent req ->
  Js.body req !! "apiId" = None /\
  forall k : string,
    k <> "apiId" -> k <> "secret_key" ->
    Js.body req !! k = Js.JString <$> Js.last_value k entries.
Proof.
  intros Hsent.
  assert (Hbody : exists data : gmap string string,
            Js.body req = ApiManagement.json_body data /\
            forall k, k <> "secret_key" -> data !! k = Js.fromEntries entries !! k).
  { unfold ApiManagement.on_submit in Hsent.
    assert (Hput : forall i : string,
              exists data : gmap string string,
                ApiManagement.json_body
                  (if ApiManagement.secret_missing (Js.fromEntries entries)
                   then delete "secret_key" (Js.fromEntries entries)
                   else Js.fromEntries entries)
                = ApiManagement.json_body data /\
                forall k, k <> "secret_key" -> data !! k = Js.fromEntries entries !! k).
    { intros _. eexists. split; [reflexivity|]. intros k Hk.
      destruct (ApiManagement.secret_missing _); [|reflexivity].
      apply lookup_delete_ne. congruence. }
    destruct currentEditApiId as [i|]; [destruct (Js.truthy_string i)|].
    - injection Hsent as <-. cbn [Js.body]. apply (Hput i).
    - destruct (ApiManagement.secret_missing _); [discriminate Hsent|].
      injection Hsent as <-. cbn [Js.body]. eauto.
    - destruct (ApiManagement.secret_missing _); [discriminate Hsent|].
      injection Hsent as <-. cbn [Js.body]. eauto. }
  destruct Hbody as (data & -> & Hdata). split.
  - apply json_body_without_apiId.
  - intros k Hid Hsecret.
    rewrite json_body_lookup, Hdata, fromEntries_lookup by assumption. reflexivity.
Qed.

Lemma key_form_body_mirrors_the_fields_witness :
  exists req,
    ApiManagement.on_submit (Some "3") edit_keeping_secret = Js.Sent req /\
    Js.body req !! "apiId" = None /\
    forall k : string,
      k <> "apiId" -> k <> "secret_key" ->
      Js.body req !! k = Js.JString <$> Js.last_value k edit_keeping_secret.
Proof.
  eexists. split; [reflexivity|].
  exact (key_form_body_mirrors_the_fields (Some "3") edit_keeping_secret _ eq_refl).
Defined.

(** ** api_management.js: the key column *)

Lemma length_substring (s : string) :
  forall n m : nat,
    String.length (String.substring n m s) = Nat.min m (String.length s - n).
Proof.
  induction s as [|c s IH]; intros n m.
  - destruct n, m; reflexivity.
  - destruct n as [|n].
    + destruct m as [|m]; [reflexivity|].
      cbn. rewrite (IH 0%nat m), Nat.sub_0_r. reflexivity.
    + cbn. apply IH.
Qed.

(** X10. The key column is never wider than 11 characters: for every
    record it is [2 * min(4, n) + 3] characters long, [n] the length of
    the key. *)
Theorem key_column_width (r : ApiManagement.ApiKeyRecord) :
  String.length (ApiManagement.keyDisplay r)
  = (2 * Nat.min 4 (String.length (ApiManagement.api_key r)) + 3)%nat /\
  (String.length (ApiManagement.keyDisplay r) <= 11)%nat.
Proof.
  rewrite keyDisplay_first_and_last. cbv zeta.
  rewrite !length_append, !length_substring. cbn [String.length]. lia.
Qed.

(** X11. A key of at most 4 characters is not masked: the key column
    shows it whole, before and after the separator. *)
Theorem short_key_is_shown_whole (r : ApiManagement.ApiKeyRecord) :
  (String.length (ApiManagement.api_key r) <= 4)%nat ->
  ApiManagement.keyDisplay r
  = ApiManagement.api_key r ++ "..." ++ ApiManagement.api_key r.
Proof.
  intros Hshort. rewrite keyDisplay_first_and_last. cbv zeta.
  set (key := ApiManagement.api_key r) in *.
  replace (String.length key - 4)%nat with 0%nat by lia.
  rewrite <- (substring_clip key 0 4).
  replace (Nat.min 4 (String.length key - 0)) with (String.length key) by lia.
  rewrite substring_whole. reflexivity.
Qed.

Lemma short_key_is_shown_whole_witness :
  ApiManagement.keyDisplay short_key = "abc" ++ "..." ++ "abc".
Proof. exact (short_key_is_shown_whole short_key ltac:(cbn; lia)). Defined.

(** ** add_strategy.js: the payload *)

Lemma collect_lookup (k : string) (l : list (string * string)) :
  AddStrategy.is_checkbox k = false ->
  k <> "__proto__" ->
  forall acc : gmap string Js.value,
    fold_left AddStrategy.collect l acc !! k
    = match Js.last_value k l with
      | Some v => Some (if AddStrategy.is_numeric k
                        then Js.VNum (Js.parseFloat v) else Js.VStr v)
      | None => acc !! k
      end.
Proof.
  intros Hbox Hproto.
  induction l as [|[k' v'] rest IH]; intros acc; [reflexivity|].
  cbn [fold_left Js.last_value]. rewrite IH.
  destruct (Js.last_value k rest); [reflexivity|].
  unfold AddStrategy.collect.
  destruct (String.eqb_spec k' k) as [->|Hne].
  - rewrite Hbox.
    destruct (AddStrategy.is_numeric k); rewrite set_property_own by exact Hproto;
      apply lookup_insert_eq.
  - destruct (AddStrategy.is_checkbox k'); [reflexivity|].
    destruct (AddStrategy.is_numeric k'); now apply set_property_other.
Qed.

Lemma collect_skips (k : string) (l : list (string * string)) :
  AddStrategy.is_checkbox k = true \/ k = "__proto__" ->
  forall acc : gmap string Js.value,
    fold_left AddStrategy.collect l acc !! k = acc !! k.
Proof.
  intros Hk. induction l as [|[k' v'] rest IH]; intros acc; [reflexivity|].
  cbn [fold_left]. rewrite IH. unfold AddStrategy.collect.
  destruct (String.eqb_spec k' k) as [->|Hne].
  - destruct Hk as [->| ->]; reflexivity.
  - destruct (AddStrategy.is_checkbox k'); [reflexivity|].
    destruct (AddStrategy.is_numeric k'); now apply set_property_other.
Qed.

(** [data] under a key that the lines after the loop do not touch. *)
Lemma build_data_field (f : AddStrategy.Form) (k : string) :
  AddStrategy.is_checkbox k = false ->
  k <> "order_timeout_seconds" ->
  AddStrategy.build_data f !! k
  = fold_left AddStrategy.collect (AddStrategy.entries f) ∅ !! k.
Proof.
  intros Hbox Hk.
  destruct (not_checkbox k Hbox) as (H1 & H2 & H3).
  assert (Hk' : "order_timeout_seconds" <> k) by congruence.
  unfold AddStrategy.build_data.
  destruct (negb _).
  - rewrite (lookup_delete_ne _ _ _ Hk'). now rewrite !set_property_other by assumption.
  - now rewrite !set_property_other by assumption.
Qed.

Lemma build_data_checkboxes (f : AddStrategy.Form) :
  AddStrategy.build_data f !! "cyclic_execution"
  = Some (Js.VBool (AddStrategy.cyclic_execution f)) /\
  AddStrategy.build_data f !! "cover_orders_participate_in_profit_taking"
  = Some (Js.VBool (AddStrategy.cover_orders_participate_in_profit_taking f)) /\
  AddStrategy.build_data f !! "enable_order_timeout"
  = Some (Js.VBool (AddStrategy.enable_order_timeout f)).
Proof.
  unfold AddStrategy.build_data.
  destruct (negb _); repeat split;
    rewrite ?lookup_delete_ne by discriminate;
    rewrite ?(set_property_other "order_timeout_seconds") by discriminate;
    rewrite ?(set_property_other "enable_order_timeout" "cyclic_execution") by discriminate;
    rewrite ?(set_property_other "enable_order_timeout"
                "cover_orders_participate_in_profit_taking") by discriminate;
    rewrite ?(set_property_other "cover_orders_participate_in_profit_taking"
                "cyclic_execution") by discriminate;
    rewrite set_property_own by discriminate; apply lookup_insert_eq.
Qed.

(** X12. The add-strategy form sends a request exactly when a key was
    chosen: with a non-empty [api_id] field it POSTs to [/strategies/]
    with that id in the body; with an empty or missing one it sends
    nothing and alerts "Please select an API Key.". *)
Theorem strategy_is_sent_only_with_a_key (f : AddStrategy.Form) :
  match Js.last_value "api_id" (AddStrategy.entries f) with
  | Some key =>
      if Js.truthy_string key then
        exists req,
          AddStrategy.on_submit f = Js.Sent req /\
          Js.method req = Js.POST /\ Js.url req = "/strategies/" /\
          Js.body req !! "api_id" = Some (Js.JString key)
      else AddStrategy.on_submit f = Js.Alerted "Please select an API Key."
  | None => AddStrategy.on_submit f = Js.Alerted "Please select an API Key."
  end.
Proof.
  assert (Hkey : AddStrategy.build_data f !! "api_id"
                 = Js.VStr <$> Js.last_value "api_id" (AddStrategy.entries f)).
  { rewrite build_data_field by (reflexivity || discriminate).
    rewrite collect_lookup by (reflexivity || discriminate).
    destruct (Js.last_value "api_id" (AddStrategy.entries f)); [reflexivity|].
    apply lookup_empty. }
  unfold AddStrategy.on_submit. rewrite Hkey.
  destruct (Js.last_value "api_id" (AddStrategy.entries f)) as [key|]; [|reflexivity].
  cbn [fmap option_fmap option_map Js.truthy_property Js.truthy].
  destruct (Js.truthy_string key); cbn [negb]; [|reflexivity].
  eexists. split; [reflexivity|]. repeat split. cbn [Js.body].
  unfold Js.stringify. rewrite lookup_fmap, Hkey. reflexivity.
Qed.

(** X13. Whenever the add-strategy form sends a request, the payload
    holds the three checkbox keys as JSON booleans equal to the checked
    state of the boxes, whatever the form entries say under these names. *)
Theorem checkboxes_are_sent_as_booleans (f : AddStrategy.Form) (req : Js.Request) :
  AddStrategy.on_submit f = Js.Sent req ->
  Js.body req !! "cyclic_execution" = Some (Js.JBool (AddStrategy.cyclic_execution f)) /\
  Js.body req !! "cover_orders_participate_in_profit_taking"
  = Some (Js.JBool (AddStrategy.cover_orders_participate_in_profit_taking f)) /\
  Js.body req !! "enable_order_timeout"
  = Some (Js.JBool (AddStrategy.enable_order_timeout f)).
Proof.
  intros Hsent. rewrite (sent_body f req Hsent). unfold Js.stringify.
  destruct (build_data_checkboxes f) as (H1 & H2 & H3).
  rewrite !lookup_fmap, H1, H2, H3. repeat split.
Qed.

Lemma checkboxes_are_sent_as_booleans_witness :
  exists req,
    AddStrategy.on_submit form_with_odd_fields = Js.Sent req /\
    Js.body req !! "cyclic_execution" = Some (Js.JBool false) /\
    Js.body req !! "cover_orders_participate_in_profit_taking" = Some (Js.JBool true) /\
    Js.body req !! "enable_order_timeout" = Some (Js.JBool true).
Proof.
  eexists. split; [reflexivity|].
  exact (checkboxes_are_sent_as_booleans form_with_odd_fields _ eq_refl).
Defined.

Lemma sent_field (f : AddStrategy.Form) (req : Js.Request) (k : string) :
  AddStrategy.on_submit f = Js.Sent req ->
  AddStrategy.is_checkbox k = false ->
  k <> "order_timeout_seconds" ->
  k <> "__proto__" ->
  Js.body req !! k = field_json k <$> Js.last_value k (AddStrategy.entries f).
Proof.
  intros Hsent Hbox Hk Hproto. rewrite (sent_body f req Hsent). unfold Js.stringify.
  rewrite lookup_fmap, build_data_field, collect_lookup by assumption.
  unfold field_json.
  destruct (Js.last_value k (AddStrategy.entries f)) as [v|].
  - destruct (AddStrategy.is_numeric k); reflexivity.
  - rewrite lookup_empty. reflexivity.
Qed.

(** X14. Whenever the add-strategy form sends a request, every field
    other than the three checkboxes, [order_timeout_seconds] and
    [__proto__] is in the payload with the value of its last entry:
    parsed by [parseFloat] (null when that is no finite number) under a
    name holding a numeric marker, as the unchanged string otherwise; a
    name the form does not submit is not in the payload. *)
Theorem fields_are_sent_by_their_names
    (f : AddStrategy.Form) (req : Js.Request) (k : string) :
  AddStrategy.on_submit f = Js.Sent req ->
  AddStrategy.is_checkbox k = false ->
  k <> "order_timeout_seconds" ->
  k <> "__proto__" ->
  Js.body req !! k = field_json k <$> Js.last_value k (AddStrategy.entries f).
Proof. exact (sent_field f req k). Qed.

Lemma fields_are_sent_by_their_names_witness :
  exists req,
    AddStrategy.on_submit form_with_odd_fields = Js.Sent req /\
    Js.body req !! "trading_pair" = Some (Js.JString "ETHUSDT") /\
    Js.body req !! "initial_order_amount" = Some (Js.JNumber (Js.parseFloat "25.5")) /\
    Js.body req !! "strategy_name" = None.
Proof.
  eexists. split; [reflexivity|].
  split; [|split].
  - exact (fields_are_sent_by_their_names form_with_odd_fields _ "trading_pair"
             eq_refl eq_refl ltac:(discriminate) ltac:(discriminate)).
  - exact (fields_are_sent_by_their_names form_with_odd_fields _ "initial_order_amount"
             eq_refl eq_refl ltac:(discriminate) ltac:(discriminate)).
  - exact (fields_are_sent_by_their_names form_with_odd_fields _ "strategy_name"
             eq_refl eq_refl ltac:(discriminate) ltac:(discriminate)).
Defined.

(** X15. The payload of the add-strategy form has no key but the three
    checkboxes, [order_timeout_seconds] (only with the timeout enabled)
    and the names the form submits; a field named [__proto__] never
    reaches it. *)
Theorem payload_keys_come_from_the_form
    (f : AddStrategy.Form) (req : Js.Request) (k : string) :
  AddStrategy.on_submit f = Js.Sent req ->
  is_Some (Js.body req !! k) ->
  k <> "__proto__" /\
  (AddStrategy.is_checkbox k = true
   \/ (k = "order_timeout_seconds" /\ AddStrategy.enable_order_timeout f = true)
   \/ is_Some (Js.last_value k (AddStrategy.entries f))).
Proof.
  intros Hsent Hin.
  assert (Hproto : k <> "__proto__").
  { intros ->. rewrite (sent_body f req Hsent) in Hin. unfold Js.stringify in Hin.
    rewrite lookup_fmap, build_data_field in Hin by (reflexivity || discriminate).
    rewrite collect_skips, lookup_empty in Hin by (right; reflexivity).
    destruct Hin as [x Hx]. discriminate Hx. }
  split; [exact Hproto|].
  destruct (AddStrategy.is_checkbox k) eqn:Hbox; [left; reflexivity|right].
  destruct (String.eqb_spec k "order_timeout_seconds") as [->|Hk].
  - left. split; [reflexivity|].
    rewrite (sent_body f req Hsent) in Hin. unfold Js.stringify in Hin.
    rewrite lookup_fmap, build_data_timeout in Hin.
    destruct (AddStrategy.enable_order_timeout f); [reflexivity|].
    destruct Hin as [x Hx]. discriminate Hx.
  - right. rewrite (sent_field f req k Hsent Hbox Hk Hproto) in Hin.
    destruct (Js.last_value k (AddStrategy.entries f)); [eauto|].
    destruct Hin as [x Hx]. discriminate Hx.
Qed.

Lemma payload_keys_come_from_the_form_witness :
  "trading_pair" <> "__proto__" /\
  (AddStrategy.is_checkbox "trading_pair" = true
   \/ ("trading_pair" = "order_timeout_seconds" /\
       AddStrategy.enable_order_timeout form_with_odd_fields = true)
   \/ is_Some (Js.last_value "trading_pair" (AddStrategy.entries form_with_odd_fields))).
Proof.
  exact (payload_keys_come_from_the_form form_with_odd_fields _ "trading_pair"
           eq_refl (ex_intro _ (Js.JString "ETHUSDT") eq_refl)).
Defined.

Example proto_field_is_not_sent :
  exists req,
    AddStrategy.on_submit form_with_odd_fields = Js.Sent req /\
    Js.last_value "__proto__" (AddStrategy.entries form_with_odd_fields) = Some "x" /\
    Js.body req !! "__proto__" = None.
Proof. eexists. split; [reflexivity|]. split; reflexivity. Qed.

(** ** add_strategy.js: the dropdown *)

Lemma add_options (keys : list ApiManagement.ApiKeyRecord) :
  forall (options : list StrategyOptions.select_option) (found : bool),
    fold_left StrategyOptions.add_option keys (options, found)
    = (app options (List.map option_of (List.filter StrategyOptions.connected keys)),
       found || existsb StrategyOptions.connected keys).
Proof.
  induction keys as [|k rest IH]; intros options found.
  - cbn. now rewrite List.app_nil_r, Bool.orb_false_r.
  - cbn [fold_left List.filter existsb]. unfold StrategyOptions.add_option at 2.
    destruct (StrategyOptions.connected k); cbn [fst].
    + rewrite IH, <- List.app_assoc. cbn [List.map app existsb].
      f_equal. now destruct found.
    + rewrite IH. reflexivity.
Qed.

Lemma none_connected (keys : list ApiManagement.ApiKeyRecord) :
  existsb StrategyOptions.connected keys = false ->
  List.filter StrategyOptions.connected keys = nil.
Proof.
  induction keys as [|k rest IH]; [reflexivity|]. cbn.
  destruct (StrategyOptions.connected k); [discriminate|exact IH].
Qed.

Lemma dropdown_shape (r : ApiManagement.fetched) :
  exists text,
    StrategyOptions.populateApiKeys r
    = (EmptyString, text)
      :: List.map option_of
           (List.filter StrategyOptions.connected (StrategyOptions.listed r)).
Proof.
  destruct r as [reason|status [keys|]]; cbn;
    try (destruct (ApiManagement.ok status)); try (eexists; reflexivity).
  rewrite add_options. cbn [orb negb app].
  destruct (existsb StrategyOptions.connected keys) eqn:Hany; cbn [negb].
  - eexists. reflexivity.
  - rewrite (none_connected keys Hany). eexists. reflexivity.
Qed.

(** X16. Whatever the key fetch returns, the dropdown starts with one
    option of empty value, and the options after it are the keys of the
    response whose [connection_status] is exactly "connected", in the
    order of the response, each with its id as value and
    "alias (mode)" as text; a failed fetch and a list without a connected
    key leave only the first option. *)
Theorem dropdown_lists_the_connected_keys (r : ApiManagement.fetched) :
  (exists text,
     StrategyOptions.populateApiKeys r
     = (EmptyString, text)
       :: List.map option_of
            (List.filter StrategyOptions.connected (StrategyOptions.listed r))) /\
  (forall value text,
     In (value, text) (List.tl (StrategyOptions.populateApiKeys r)) ->
     exists apiKey,
       In apiKey (StrategyOptions.listed r) /\
       ApiManagement.connection_status apiKey = "connected" /\
       value = ApiManagement.id apiKey).
Proof.
  split; [apply dropdown_shape|].
  destruct (dropdown_shape r) as (first & ->). cbn [List.tl].
  intros value text Hin.
  apply List.in_map_iff in Hin as (apiKey & Hopt & Hkey).
  apply List.filter_In in Hkey as [Hlisted Hconn].
  exists apiKey. split; [exact Hlisted|]. split.
  - now apply String.eqb_eq.
  - unfold option_of in Hopt. congruence.
Qed.

Lemma dropdown_lists_the_connected_keys_witness :
  exists apiKey,
    In apiKey (StrategyOptions.listed mixed_keys) /\
    ApiManagement.connection_status apiKey = "connected" /\
    "3" = ApiManagement.id apiKey.
Proof.
  exact (proj2 (dropdown_lists_the_connected_keys mixed_keys) "3" "main (live)"
           (or_introl eq_refl)).
Defined.

Example dropdown_of_mixed_keys :
  StrategyOptions.populateApiKeys mixed_keys
  = (EmptyString, "Select an API Key") :: ("3", "main (live)") :: ("3", "main (live)") :: nil
  /\ StrategyOptions.populateApiKeys (ApiManagement.Response 200 (Some (short_key :: nil)))
     = (EmptyString, "No connected API Keys found. Please add and check API connection.")
       :: nil
  /\ StrategyOptions.populateApiKeys (ApiManagement.Response 503 None)
     = (EmptyString, "Error loading API Keys") :: nil.
Proof. split; [|split]; reflexivity. Qed.

(** X17. A form submitted with the dropdown still on its first option
    sends nothing, whatever the key fetch has put into the dropdown: the
    first option's value is empty, and an empty [api_id] stops the
    submission with the alert "Please select an API Key.". *)
Theorem first_option_never_submits
    (r : ApiManagement.fetched) (f : AddStrategy.Form)
    (first : StrategyOptions.select_option) :
  List.head (StrategyOptions.populateApiKeys r) = Some first ->
  Js.last_value "api_id" (AddStrategy.entries f) = Some (fst first) ->
  AddStrategy.on_submit f = Js.Alerted "Please select an API Key.".
Proof.
  intros Hfirst Hchosen.
  destruct (dropdown_shape r) as (text & Hshape).
  rewrite Hshape in Hfirst. injection Hfirst as <-. cbn [fst] in Hchosen.
  assert (Hkey : AddStrategy.build_data f !! "api_id" = Some (Js.VStr EmptyString)).
  { rewrite build_data_field by (reflexivity || discriminate).
    rewrite collect_lookup by (reflexivity || discriminate).
    rewrite Hchosen. reflexivity. }
  unfold AddStrategy.on_submit. rewrite Hkey. reflexivity.
Qed.

Lemma first_option_never_submits_witness :
  AddStrategy.on_submit form_without_key = Js.Alerted "Please select an API Key.".
Proof.
  exact (first_option_never_submits mixed_keys form_without_key
           (EmptyString, "Select an API Key") eq_refl eq_refl).
Defined.

(** ** api_management.js: which click decides the mode *)

Lemma step_mode (defaults : ApiManagement.FormFields)
    (p : ApiManagement.Page) (e : ApiKeyForm.event) :
  ApiManagement.currentEditApiId (ApiKeyForm.step defaults p e)
  = match e with
    | ApiKeyForm.ShowAdd => None
    | ApiKeyForm.EditClicked button_id _ => Some button_id
    | _ => ApiManagement.currentEditApiId p
    end.
Proof.
  destruct e as [| |button_id r|r|r refresh|confirmed r refresh]; cbn;
    try reflexivity.
  - destruct r as [reason|status [message|apiKey]]; cbn;
      try destruct (ApiManagement.ok status); reflexivity.
  - destruct (fetchApiKeys_sets_table r p) as (rows & lines & ->). reflexivity.
  - destruct (fetchApiKeys_sets_table refresh p) as (rows & lines & Hf).
    destruct r as [reason|status [message|detail]]; cbn;
      try destruct (ApiManagement.ok status); cbn; rewrite ?Hf; reflexivity.
  - destruct (fetchApiKeys_sets_table refresh p) as (rows & lines & Hf).
    destruct confirmed; [|reflexivity].
    destruct r as [reason|status [message|detail]]; cbn;
      try destruct (ApiManagement.ok status); cbn; rewrite ?Hf; reflexivity.
Qed.

(** X18. After any run of events the edit id is the one the last add or
    edit click left: none after "add", the clicked row's id after an edit
    click, whether its load succeeded or not.  Cancelling, a finished
    save (the form is hidden and reset, the id stays), a delete and a
    list refresh never change it. *)
Theorem last_click_decides_the_mode
    (defaults : ApiManagement.FormFields) (events : list ApiKeyForm.event)
    (p : ApiManagement.Page) :
  ApiManagement.currentEditApiId (ApiKeyForm.run defaults events p)
  = match last_mode events with
    | Some m => m
    | None => ApiManagement.currentEditApiId p
    end.
Proof.
  revert p. induction events as [|e rest IH]; intros p; [reflexivity|].
  cbn [ApiKeyForm.run fold_left last_mode].
  change (fold_left (ApiKeyForm.step defaults) rest (ApiKeyForm.step defaults p e))
    with (ApiKeyForm.run defaults rest (ApiKeyForm.step defaults p e)).
  rewrite IH, step_mode.
  destruct (last_mode rest); [reflexivity|].
  destruct e; reflexivity.
Qed.

Example save_keeps_the_edit_id :
  ApiManagement.currentEditApiId
    (ApiKeyForm.run blank_fields
       (ApiKeyForm.EditClicked "3"
          (ApiKeyForm.DetailResponse 200 (ApiKeyForm.Parsed sample_key))
        :: ApiKeyForm.SaveFinished
             (ApiKeyForm.ActionResponse 200 (ApiKeyForm.Parsed None))
             (ApiManagement.Response 200 (Some (sample_key :: nil)))
        :: nil)
       adding_page)
  = Some "3".
Proof. reflexivity. Qed.

(* ===================================================================== *)
(** * What the cards and the rows show                                    *)
(* ===================================================================== *)

(** ** Text within markup *)

Lemma starts_last (c rest : string) : Shown.starts (c ++ rest) c.
Proof. now exists rest. Qed.

Lemma starts_cons (c s t : string) :
  Shown.starts s t -> Shown.starts (c ++ s) (c ++ t).
Proof. intros (a & ->). exists a. now rewrite append_assoc. Qed.

Lemma within_of_starts (s t : string) : Shown.starts s t -> Shown.within s t.
Proof. intros (a & ->). now exists EmptyString, a. Qed.

Lemma within_skip (x s t : string) : Shown.within s t -> Shown.within (x ++ s) t.
Proof. intros (b & a & ->). exists (x ++ b), a. now rewrite append_assoc. Qed.

Lemma within_last (x t : string) : Shown.within (x ++ t) t.
Proof. exists x, EmptyString. f_equal. induction t as [|c t IH]; [reflexivity|].
  rewrite append_cons. now rewrite <- IH. Qed.

Lemma within_trans (s t u : string) :
  Shown.within s t -> Shown.within t u -> Shown.within s u.
Proof.
  intros (b & a & ->) (b' & a' & ->). exists (b ++ b'), (a' ++ a).
  now rewrite !append_assoc.
Qed.

Ltac prove_starts :=
  first [ apply starts_last | apply starts_cons; prove_starts ].

Ltac find_within :=
  first [ apply within_of_starts; prove_starts
        | apply within_last
        | apply within_skip; find_within ].

Lemma blocks_within_card (item : Dashboard.Item) :
  Shown.within (Dashboard.card_html item)
    (Dashboard.positionInfo item ++ Js.nl ++ Js.spaces 16 ++ Dashboard.pnlInfo item).
Proof. unfold Dashboard.card_html. find_within. Qed.

Lemma carries_blocks (item : Dashboard.Item) (position pnl : string) :
  Dashboard.positionInfo item = position ->
  Dashboard.pnlInfo item = pnl ->
  Shown.carries item position pnl.
Proof.
  intros Hpos Hpnl. repeat split; [exact Hpos|exact Hpnl|].
  rewrite <- Hpos, <- Hpnl. apply blocks_within_card.
Qed.

Lemma position_within_card (item : Dashboard.Item) (position pnl text : string) :
  Shown.carries item position pnl ->
  Shown.within position text ->
  Shown.within (Dashboard.card_html item) text.
Proof.
  intros (_ & _ & Hcard) Htext.
  apply (within_trans _ _ _ Hcard). apply (within_trans _ position); [|exact Htext].
  find_within.
Qed.

Lemma pnl_within_card (item : Dashboard.Item) (position pnl text : string) :
  Shown.carries item position pnl ->
  Shown.within pnl text ->
  Shown.within (Dashboard.card_html item) text.
Proof.
  intros (_ & _ & Hcard) Htext.
  apply (within_trans _ _ _ Hcard). apply (within_trans _ pnl); [|exact Htext].
  find_within.
Qed.

Lemma value_line_within (avg qty value : string) :
  Shown.within (Shown.position_figures avg qty value)
    ("<p>Value: " ++ value ++ " USDT</p>").
Proof. unfold Shown.position_figures. find_within. Qed.

Lemma entry_line_within (avg qty value : string) :
  Shown.within (Shown.position_figures avg qty value)
    ("<p>Avg. Entry: " ++ avg ++ "</p>").
Proof. unfold Shown.position_figures. find_within. Qed.

Lemma unrealized_line_within (realized cls unrealized pct : string) :
  Shown.within (Shown.pnl_figures realized cls unrealized pct)
    (Shown.unrealized_line cls unrealized pct).
Proof. unfold Shown.pnl_figures. find_within. Qed.

Lemma includes_unfold (s t : string) :
  Js.includes s t
  = String.prefix t s
    || match s with
       | String _ r => Js.includes r t
       | EmptyString => false
       end.
Proof. destruct s; reflexivity. Qed.

Lemma within_includes (s t : string) : Shown.within s t -> Js.includes s t = true.
Proof.
  intros (b & a & ->). induction b as [|c b IH].
  - change (EmptyString ++ t ++ a) with (t ++ a).
    rewrite includes_unfold.
    replace (String.prefix t (t ++ a)) with true; [reflexivity|].
    symmetry. apply String.prefix_correct, substring_head.
  - rewrite append_cons, includes_unfold, IH. apply Bool.orb_true_r.
Qed.

(** The two blocks of a card that meets the condition of line 44. *)
Lemma computed_blocks (item : Dashboard.Item) (state : Dashboard.ActiveState) :
  Dashboard.active_state item = Some state ->
  Dashboard.has_position state (Dashboard.current_market_price item) = true ->
  let price := Dashboard.current_market_price item in
  Shown.carries item
    (Shown.position_figures
       (Dashboard.fixed_or 4 "N/A" (Dashboard.average_entry_price state))
       (Dashboard.fixed_or 4 "N/A" (Dashboard.current_position_quantity state))
       (Js.toFixed 2 (Dashboard.positionValue state price)))
    (Shown.pnl_figures
       (Dashboard.fixed_or 2 "0.00" (Dashboard.realized_pnl_usdt state))
       (if Js.geb (Dashboard.unrealizedPnl state price) Js.pos_zero
        then "profit" else "loss")
       (Js.toFixed 2 (Dashboard.unrealizedPnl state price))
       (Js.toFixed 2 (Dashboard.pnlPercentage state price))).
Proof.
  intros Hstate Hpos price. subst price. apply carries_blocks.
  - unfold Dashboard.positionInfo. rewrite Hstate, Hpos. reflexivity.
  - unfold Dashboard.pnlInfo. rewrite Hstate, Hpos.
    unfold Dashboard.pnl_block, Shown.pnl_figures, Shown.unrealized_line.
    rewrite ?append_assoc. reflexivity.
Qed.


(** ** dashboard.js: the figures on the card *)

(** C1. For every dashboard item whose active state has
    [current_position_quantity > 0] and whose [current_market_price] is
    not null, quantity and price are numbers [q] and [p], the position
    value is the product [q * p], the unrealized PnL is
    [(p - average_entry_price) * q], and the rendered card carries
    exactly these two figures, to two decimals: its markup holds the
    paragraph "Value: ... USDT" with the one and the paragraph
    "Unrealized P&L: ..." with the other, inside the position block and
    the PnL block that the card is made of. *)
Theorem position_value_and_unrealized_pnl
    (item : Dashboard.Item) (state : Dashboard.ActiveState) :
  Dashboard.active_state item = Some state ->
  Js.gt_zero (Dashboard.current_position_quantity state) = true ->
  Js.not_nullish (Dashboard.current_market_price item) = true ->
  exists q p : Js.number,
    Dashboard.current_position_quantity state = Js.Num q /\
    Dashboard.current_market_price item = Js.Num p /\
    let avg := Js.to_number (Dashboard.average_entry_price state) in
    let value := Js.mul q p in
    let pnl := Js.mul (Js.sub p avg) q in
    let cls := if Js.geb pnl Js.pos_zero then "profit" else "loss" in
    let pct := Js.toFixed 2 (Dashboard.pnlPercentage state (Js.Num p)) in
    Dashboard.positionValue state (Dashboard.current_market_price item) = value /\
    Dashboard.unrealizedPnl state (Dashboard.current_market_price item) = pnl /\
    Shown.within (Dashboard.card_html item)
      ("<p>Value: " ++ Js.toFixed 2 value ++ " USDT</p>") /\
    Shown.within (Dashboard.card_html item)
      ("<p>Unrealized P&L: <span class=" ++ Js.dq ++ cls ++ Js.dq ++ ">"
         ++ Js.toFixed 2 pnl ++ " USDT (" ++ pct ++ "%)</span></p>") /\
    Shown.carries item
      (Shown.position_figures
         (Dashboard.fixed_or 4 "N/A" (Dashboard.average_entry_price state))
         (Js.toFixed 4 q) (Js.toFixed 2 value))
      (Shown.pnl_figures
         (Dashboard.fixed_or 2 "0.00" (Dashboard.realized_pnl_usdt state))
         cls (Js.toFixed 2 pnl) pct).
Proof.
  intros Hstate Hq Hp.
  destruct (gt_zero_is_number _ Hq) as (q & Eq & _).
  destruct (not_nullish_is_number _ Hp) as (p & Ep).
  exists q, p. split; [exact Eq|]. split; [exact Ep|]. cbv zeta.
  assert (Hpos : Dashboard.has_position state (Dashboard.current_market_price item) = true)
    by (unfold Dashboard.has_position; now rewrite Hq, Hp).
  pose proof (computed_blocks item state Hstate Hpos) as Hcard. cbv zeta in Hcard.
  rewrite Ep in Hcard |- *.
  unfold Dashboard.positionValue, Dashboard.unrealizedPnl in Hcard |- *.
  rewrite Eq in Hcard |- *. cbn [Js.to_number Dashboard.fixed_or] in Hcard |- *.
  split; [reflexivity|]. split; [reflexivity|].
  split; [|split; [|exact Hcard]].
  - apply (position_within_card _ _ _ _ Hcard), value_line_within.
  - apply (pnl_within_card _ _ _ _ Hcard), unrealized_line_within.
Qed.

Lemma position_value_and_unrealized_pnl_witness :
  exists q p : Js.number,
    Js.Num (Js.of_Z 5) = Js.Num q /\
    Js.Num (Js.parseFloat "110.5") = Js.Num p /\
    Dashboard.positionValue sample_state (Js.Num (Js.parseFloat "110.5")) = Js.mul q p /\
    Dashboard.unrealizedPnl sample_state (Js.Num (Js.parseFloat "110.5"))
    = Js.mul (Js.sub p (Js.of_Z 100)) q /\
    Shown.within (Dashboard.card_html sample_item)
      ("<p>Value: " ++ Js.toFixed 2 (Js.mul q p) ++ " USDT</p>") /\
    Shown.within (Dashboard.card_html sample_item)
      ("<p>Unrealized P&L: <span class=" ++ Js.dq
         ++ (if Js.geb (Js.mul (Js.sub p (Js.of_Z 100)) q) Js.pos_zero
             then "profit" else "loss")
         ++ Js.dq ++ ">" ++ Js.toFixed 2 (Js.mul (Js.sub p (Js.of_Z 100)) q)
         ++ " USDT (" ++ Js.toFixed 2 (Dashboard.pnlPercentage sample_state (Js.Num p))
         ++ "%)</span></p>") /\
    Shown.carries sample_item
      (Shown.position_figures "100.0000" (Js.toFixed 4 q) (Js.toFixed 2 (Js.mul q p)))
      (Shown.pnl_figures "0.00"
         (if Js.geb (Js.mul (Js.sub p (Js.of_Z 100)) q) Js.pos_zero
          then "profit" else "loss")
         (Js.toFixed 2 (Js.mul (Js.sub p (Js.of_Z 100)) q))
         (Js.toFixed 2 (Dashboard.pnlPercentage sample_state (Js.Num p)))).
Proof.
  exact (position_value_and_unrealized_pnl sample_item sample_state
           eq_refl eq_refl eq_refl).
Defined.

Example sample_card_figures :
  Js.includes (Dashboard.card_html sample_item) "<p>Value: 552.50 USDT</p>" = true /\
  Js.includes (Dashboard.card_html sample_item)
    ("<p>Unrealized P&L: <span class=" ++ Js.dq ++ "profit" ++ Js.dq
       ++ ">52.50 USDT (10.50%)</span></p>") = true.
Proof. vm_compute. split; reflexivity. Qed.



(** C3 as stated fails: with [total_invested_usdt == 0] and a held
    position the percentage is "0.00", but the unrealized PnL beside it
    is rendered as "Infinity" when the figures overflow and as "NaN" when
    the state has no entry price. *)
Lemma nan_and_infinity_beside_zero_percentage :
  (Js.loose_eq_zero (Dashboard.total_invested_usdt overflowing_state) = true /\
   Dashboard.has_position overflowing_state
     (Dashboard.current_market_price overflowing_item) = true /\
   Js.includes (Dashboard.card_html overflowing_item)
     ">Infinity USDT (0.00%)</span>" = true) /\
  (Js.loose_eq_zero (Dashboard.total_invested_usdt entryless_free_state) = true /\
   Dashboard.has_position entryless_free_state
     (Dashboard.current_market_price entryless_free_item) = true /\
   Js.includes (Dashboard.card_html entryless_free_item)
     ">NaN USDT (0.00%)</span>" = true).
Proof. vm_compute. repeat split. Qed.

(** C3, amended. For every dashboard item that meets the conditions of
    the PnL block and whose [total_invested_usdt == 0], the division
    [unrealizedPnl / total_invested_usdt] is not evaluated, the PnL
    percentage is 0 whatever the unrealized PnL is, and the percentage on
    the rendered card reads "0.00", never NaN or Infinity.  (Nothing is
    said of the other figures of the card.) *)
Theorem pnl_percentage_zero_when_nothing_invested
    (item : Dashboard.Item) (state : Dashboard.ActiveState) :
  Dashboard.active_state item = Some state ->
  Dashboard.has_position state (Dashboard.current_market_price item) = true ->
  Js.loose_eq_zero (Dashboard.total_invested_usdt state) = true ->
  let pnl := Dashboard.unrealizedPnl state (Dashboard.current_market_price item) in
  let cls := if Js.geb pnl Js.pos_zero then "profit" else "loss" in
  Dashboard.pnl_division state (Dashboard.current_market_price item) = None /\
  Dashboard.pnlPercentage state (Dashboard.current_market_price item) = Js.pos_zero /\
  Shown.within (Dashboard.card_html item)
    ("<p>Unrealized P&L: <span class=" ++ Js.dq ++ cls ++ Js.dq ++ ">"
       ++ Js.toFixed 2 pnl ++ " USDT (" ++ "0.00" ++ "%)</span></p>") /\
  Shown.carries item
    (Shown.position_figures
       (Dashboard.fixed_or 4 "N/A" (Dashboard.average_entry_price state))
       (Dashboard.fixed_or 4 "N/A" (Dashboard.current_position_quantity state))
       (Js.toFixed 2 (Dashboard.positionValue state (Dashboard.current_market_price item))))
    (Shown.pnl_figures
       (Dashboard.fixed_or 2 "0.00" (Dashboard.realized_pnl_usdt state))
       cls (Js.toFixed 2 pnl) "0.00").
Proof.
  intros Hstate Hpos Hzero pnl cls.
  assert (Hdiv : Dashboard.pnl_division state (Dashboard.current_market_price item)
                 = None).
  { unfold Dashboard.pnl_division.
    destruct (Dashboard.total_invested_usdt state) as [| |t]; try discriminate Hzero.
    cbn in Hzero |- *. rewrite Hzero. reflexivity. }
  assert (Hpct : Dashboard.pnlPercentage state (Dashboard.current_market_price item)
                 = Js.pos_zero).
  { unfold Dashboard.pnlPercentage. rewrite Hdiv. reflexivity. }
  pose proof (computed_blocks item state Hstate Hpos) as Hcard. cbv zeta in Hcard.
  rewrite Hpct in Hcard.
  change (Js.toFixed 2 Js.pos_zero) with "0.00" in Hcard.
  split; [exact Hdiv|]. split; [exact Hpct|]. split; [|exact Hcard].
  apply (pnl_within_card _ _ _ _ Hcard), unrealized_line_within.
Qed.

Lemma pnl_percentage_zero_when_nothing_invested_witness :
  Dashboard.pnl_division free_state (Js.Num (Js.parseFloat "110.5")) = None /\
  Dashboard.pnlPercentage free_state (Js.Num (Js.parseFloat "110.5")) = Js.pos_zero /\
  Shown.within (Dashboard.card_html free_item)
    ("<p>Unrealized P&L: <span class=" ++ Js.dq ++ "profit" ++ Js.dq ++ ">"
       ++ "552.50" ++ " USDT (" ++ "0.00" ++ "%)</span></p>") /\
  Shown.carries free_item
    (Shown.position_figures "N/A" "5.0000" "552.50")
    (Shown.pnl_figures "-3.46" "profit" "552.50" "0.00").
Proof.
  exact (pnl_percentage_zero_when_nothing_invested free_item free_state
           eq_refl eq_refl eq_refl).
Defined.

(** C10. For every dashboard item with an active state, a quantity above
    zero, a market price that is not null and a null
    [average_entry_price], the rendered card reads "Avg. Entry: N/A" and
    all the same shows, as its unrealized PnL,
    [current_market_price * current_position_quantity] to two decimals:
    the null entry price counts as 0 in the subtraction. *)
Theorem null_entry_price_still_yields_pnl
    (item : Dashboard.Item) (state : Dashboard.ActiveState) (q p : Js.number) :
  Dashboard.active_state item = Some state ->
  Dashboard.current_position_quantity state = Js.Num q ->
  Js.ltb Js.pos_zero q = true ->
  Dashboard.current_market_price item = Js.Num p ->
  Dashboard.average_entry_price state = Js.Null ->
  let cls := if Js.geb (Js.mul p q) Js.pos_zero then "profit" else "loss" in
  let pct := Js.toFixed 2 (Dashboard.pnlPercentage state (Js.Num p)) in
  Dashboard.unrealizedPnl state (Dashboard.current_market_price item) = Js.mul p q /\
  Shown.within (Dashboard.card_html item) "<p>Avg. Entry: N/A</p>" /\
  Shown.within (Dashboard.card_html item)
    ("<p>Unrealized P&L: <span class=" ++ Js.dq ++ cls ++ Js.dq ++ ">"
       ++ Js.toFixed 2 (Js.mul p q) ++ " USDT (" ++ pct ++ "%)</span></p>") /\
  Shown.carries item
    (Shown.position_figures "N/A" (Js.toFixed 4 q) (Js.toFixed 2 (Js.mul q p)))
    (Shown.pnl_figures
       (Dashboard.fixed_or 2 "0.00" (Dashboard.realized_pnl_usdt state))
       cls (Js.toFixed 2 (Js.mul p q)) pct).
Proof.
  intros Hstate Hq Hgt Hp Havg cls pct. subst cls pct.
  assert (Hpos : Dashboard.has_position state (Dashboard.current_market_price item) = true).
  { unfold Dashboard.has_position, Js.gt_zero. rewrite Hq, Hp. cbn [Js.to_number].
    now rewrite Hgt. }
  pose proof (computed_blocks item state Hstate Hpos) as Hcard. cbv zeta in Hcard.
  assert (Hpnl : Dashboard.unrealizedPnl state (Dashboard.current_market_price item)
                 = Js.mul p q).
  { unfold Dashboard.unrealizedPnl. rewrite Hq, Hp, Havg. cbn [Js.to_number].
    now rewrite sub_zero_r. }
  rewrite Hpnl in Hcard. rewrite Hp in Hcard.
  unfold Dashboard.positionValue in Hcard.
  rewrite Hq, Havg in Hcard. cbn [Js.to_number Dashboard.fixed_or] in Hcard.
  split; [exact Hpnl|]. split; [|split; [|exact Hcard]].
  - apply (position_within_card _ _ _ _ Hcard), entry_line_within.
  - apply (pnl_within_card _ _ _ _ Hcard), unrealized_line_within.
Qed.

Lemma null_entry_price_still_yields_pnl_witness :
  Dashboard.unrealizedPnl free_state (Js.Num (Js.parseFloat "110.5"))
  = Js.mul (Js.parseFloat "110.5") (Js.of_Z 5) /\
  Shown.within (Dashboard.card_html free_item) "<p>Avg. Entry: N/A</p>" /\
  Shown.within (Dashboard.card_html free_item)
    ("<p>Unrealized P&L: <span class=" ++ Js.dq ++ "profit" ++ Js.dq ++ ">"
       ++ Js.toFixed 2 (Js.mul (Js.parseFloat "110.5") (Js.of_Z 5))
       ++ " USDT (" ++ "0.00" ++ "%)</span></p>") /\
  Shown.carries free_item
    (Shown.position_figures "N/A" "5.0000" "552.50")
    (Shown.pnl_figures "-3.46" "profit"
       (Js.toFixed 2 (Js.mul (Js.parseFloat "110.5") (Js.of_Z 5))) "0.00").
Proof.
  exact (null_entry_price_still_yields_pnl free_item free_state
           (Js.of_Z 5) (Js.parseFloat "110.5")
           eq_refl eq_refl eq_refl eq_refl eq_refl).
Defined.

(** X4. When the state of a held position has no [average_entry_price]
    property at all (undefined, not null), the rendered card reads
    "Avg. Entry: N/A" and shows an unrealized PnL of "NaN" in the "loss"
    class; its percentage is "NaN" too unless the guard
    [total_invested_usdt !== 0] is false. *)
Theorem missing_entry_price_yields_nan
    (item : Dashboard.Item) (state : Dashboard.ActiveState) (q p : Js.number) :
  Dashboard.active_state item = Some state ->
  Dashboard.current_position_quantity state = Js.Num q ->
  Js.ltb Js.pos_zero q = true ->
  Dashboard.current_market_price item = Js.Num p ->
  Dashboard.average_entry_price state = Js.Undefined ->
  let pct := if Js.strict_ne_zero (Dashboard.total_invested_usdt state)
             then "NaN" else "0.00" in
  Shown.within (Dashboard.card_html item) "<p>Avg. Entry: N/A</p>" /\
  Shown.within (Dashboard.card_html item)
    ("<p>Unrealized P&L: <span class=" ++ Js.dq ++ "loss" ++ Js.dq ++ ">"
       ++ "NaN" ++ " USDT (" ++ pct ++ "%)</span></p>") /\
  Shown.carries item
    (Shown.position_figures "N/A" (Js.toFixed 4 q) (Js.toFixed 2 (Js.mul q p)))
    (Shown.pnl_figures
       (Dashboard.fixed_or 2 "0.00" (Dashboard.realized_pnl_usdt state))
       "loss" "NaN" pct).
Proof.
  intros Hstate Hq Hgt Hp Havg pct. subst pct.
  assert (Hpos : Dashboard.has_position state (Dashboard.current_market_price item) = true).
  { unfold Dashboard.has_position, Js.gt_zero. rewrite Hq, Hp. cbn [Js.to_number].
    now rewrite Hgt. }
  pose proof (computed_blocks item state Hstate Hpos) as Hcard. cbv zeta in Hcard.
  assert (Hpnl : Dashboard.unrealizedPnl state (Dashboard.current_market_price item)
                 = Js.NaN).
  { unfold Dashboard.unrealizedPnl. rewrite Hq, Hp, Havg. cbn [Js.to_number].
    destruct p as [[|]|[|]| |s m e]; reflexivity. }
  assert (Hpct : Js.toFixed 2 (Dashboard.pnlPercentage state
                                 (Dashboard.current_market_price item))
                 = if Js.strict_ne_zero (Dashboard.total_invested_usdt state)
                   then "NaN" else "0.00").
  { unfold Dashboard.pnlPercentage, Dashboard.pnl_division. rewrite Hpnl.
    destruct (Js.strict_ne_zero (Dashboard.total_invested_usdt state)); reflexivity. }
  rewrite Hpct, Hpnl in Hcard. rewrite Hp in Hcard.
  unfold Dashboard.positionValue in Hcard.
  rewrite Hq, Havg in Hcard. cbn [Js.to_number Dashboard.fixed_or] in Hcard.
  change (Js.toFixed 2 Js.NaN) with "NaN" in Hcard.
  change (if Js.geb Js.NaN Js.pos_zero then "profit" else "loss") with "loss" in Hcard.
  split; [|split; [|exact Hcard]].
  - apply (position_within_card _ _ _ _ Hcard), entry_line_within.
  - apply (pnl_within_card _ _ _ _ Hcard), unrealized_line_within.
Qed.

Lemma missing_entry_price_yields_nan_witness :
  Shown.within (Dashboard.card_html entryless_item) "<p>Avg. Entry: N/A</p>" /\
  Shown.within (Dashboard.card_html entryless_item)
    ("<p>Unrealized P&L: <span class=" ++ Js.dq ++ "loss" ++ Js.dq ++ ">"
       ++ "NaN" ++ " USDT (" ++ "NaN" ++ "%)</span></p>") /\
  Shown.carries entryless_item
    (Shown.position_figures "N/A" (Js.toFixed 4 (Js.of_Z 5))
       (Js.toFixed 2 (Js.mul (Js.of_Z 5) (Js.parseFloat "110.5"))))
    (Shown.pnl_figures "2.00" "loss" "NaN" "NaN").
Proof.
  exact (missing_entry_price_yields_nan entryless_item entryless_state
           (Js.of_Z 5) (Js.parseFloat "110.5")
           eq_refl eq_refl eq_refl eq_refl eq_refl).
Defined.

(** X5. The guard of the percentage compares with [!== 0], which a null
    or missing [total_invested_usdt] passes: for such a state with a
    held position the division is evaluated with a divisor that is 0 or
    NaN, the percentage is never a finite number, and the rendered card
    shows it, after the unrealized PnL, as "NaN", "Infinity" or
    "-Infinity". *)
Theorem null_investment_passes_the_guard
    (item : Dashboard.Item) (state : Dashboard.ActiveState) :
  Dashboard.active_state item = Some state ->
  Dashboard.has_position state (Dashboard.current_market_price item) = true ->
  Js.not_nullish (Dashboard.total_invested_usdt state) = false ->
  let price := Dashboard.current_market_price item in
  let pnl := Dashboard.unrealizedPnl state price in
  let cls := if Js.geb pnl Js.pos_zero then "profit" else "loss" in
  Dashboard.pnl_division state price
  = Some (pnl, Js.to_number (Dashboard.total_invested_usdt state)) /\
  Js.is_finite (Dashboard.pnlPercentage state price) = false /\
  exists pct : string,
    (pct = "NaN" \/ pct = "Infinity" \/ pct = "-Infinity") /\
    Shown.within (Dashboard.card_html item)
      ("<p>Unrealized P&L: <span class=" ++ Js.dq ++ cls ++ Js.dq ++ ">"
         ++ Js.toFixed 2 pnl ++ " USDT (" ++ pct ++ "%)</span></p>") /\
    Shown.carries item
      (Shown.position_figures
         (Dashboard.fixed_or 4 "N/A" (Dashboard.average_entry_price state))
         (Dashboard.fixed_or 4 "N/A" (Dashboard.current_position_quantity state))
         (Js.toFixed 2 (Dashboard.positionValue state price)))
      (Shown.pnl_figures
         (Dashboard.fixed_or 2 "0.00" (Dashboard.realized_pnl_usdt state))
         cls (Js.toFixed 2 pnl) pct).
Proof.
  intros Hstate Hpos Hnull price pnl cls.
  destruct hundred_is_finite as (m100 & e100 & H100).
  assert (Hdiv : Dashboard.pnl_division state price
                 = Some (pnl, Js.to_number (Dashboard.total_invested_usdt state))).
  { unfold Dashboard.pnl_division.
    destruct (Dashboard.total_invested_usdt state); [reflexivity|reflexivity|discriminate]. }
  assert (Hpct : Dashboard.pnlPercentage state price = Js.NaN
                 \/ exists s, Dashboard.pnlPercentage state price = S754_infinity s).
  { unfold Dashboard.pnlPercentage. rewrite Hdiv, H100.
    destruct (Dashboard.total_invested_usdt state) as [| |t]; [| |discriminate];
      cbn [Js.to_number]; destruct pnl as [[|]|[|]| |s m e]; cbn; eauto. }
  pose proof (computed_blocks item state Hstate Hpos) as Hcard. cbv zeta in Hcard.
  fold price pnl cls in Hcard.
  split; [exact Hdiv|].
  assert (Hshown : Js.is_finite (Dashboard.pnlPercentage state price) = false /\
                   (Js.toFixed 2 (Dashboard.pnlPercentage state price) = "NaN"
                    \/ Js.toFixed 2 (Dashboard.pnlPercentage state price) = "Infinity"
                    \/ Js.toFixed 2 (Dashboard.pnlPercentage state price) = "-Infinity")).
  { destruct Hpct as [->|([|] & ->)]; cbn; auto. }
  destruct Hshown as [Hfin Htext]. split; [exact Hfin|].
  exists (Js.toFixed 2 (Dashboard.pnlPercentage state price)).
  split; [exact Htext|]. split; [|exact Hcard].
  apply (pnl_within_card _ _ _ _ Hcard), unrealized_line_within.
Qed.

Lemma null_investment_passes_the_guard_witness :
  Dashboard.pnl_division uninvested_state (Js.Num (Js.parseFloat "110.5"))
  = Some (Dashboard.unrealizedPnl uninvested_state (Js.Num (Js.parseFloat "110.5")),
          Js.pos_zero) /\
  Js.is_finite (Dashboard.pnlPercentage uninvested_state (Js.Num (Js.parseFloat "110.5")))
  = false /\
  exists pct : string,
    (pct = "NaN" \/ pct = "Infinity" \/ pct = "-Infinity") /\
    Shown.within (Dashboard.card_html uninvested_item)
      ("<p>Unrealized P&L: <span class=" ++ Js.dq ++ "profit" ++ Js.dq ++ ">"
         ++ "52.50" ++ " USDT (" ++ pct ++ "%)</span></p>") /\
    Shown.carries uninvested_item
      (Shown.position_figures "100.0000" "5.0000" "552.50")
      (Shown.pnl_figures "0.00" "profit" "52.50" pct).
Proof.
  exact (null_investment_passes_the_guard uninvested_item uninvested_state
           eq_refl eq_refl eq_refl).
Defined.

Example uninvested_card_shows_infinity :
  Js.includes (Dashboard.card_html uninvested_item) ">52.50 USDT (Infinity%)</span>"
  = true.
Proof. vm_compute. reflexivity. Qed.

(** ** api_management.js: the rows of the table *)

(** C7. For every credential record the rendered row is the row markup
    whose key column holds the first 4 characters of [api_key], the
    separator "..." and its last 4 characters, and nothing else of the
    key: for a key [first ++ middle ++ last] the row is written without
    [middle].  The row does not depend on [secret_key], and the table
    body a successful fetch leaves consists of exactly these rows. *)
Theorem table_row_masks_key_and_omits_secret (r : ApiManagement.ApiKeyRecord) :
  ApiManagement.row_html r = Shown.row_with r (masked (ApiManagement.api_key r)) /\
  Shown.within (ApiManagement.row_html r)
    ("<td>" ++ String.substring 0 4 (ApiManagement.api_key r) ++ "..."
       ++ String.substring (String.length (ApiManagement.api_key r) - 4) 4
            (ApiManagement.api_key r) ++ "</td>") /\
  (forall first middle last : string,
     String.length first = 4%nat -> String.length last = 4%nat ->
     ApiManagement.api_key r = first ++ middle ++ last ->
     ApiManagement.row_html r = Shown.row_with r (first ++ "..." ++ last)) /\
  (forall secret : option string,
     ApiManagement.row_html (with_secret secret r)
     = Shown.row_with r (masked (ApiManagement.api_key r))) /\
  (forall (status : Z) (keys : list ApiManagement.ApiKeyRecord) (p : ApiManagement.Page),
     ApiManagement.ok status = true ->
     ApiManagement.tableBody
       (ApiManagement.fetchApiKeys (ApiManagement.Response status (Some keys)) p)
     = List.map (fun k => Shown.row_with k (masked (ApiManagement.api_key k))) keys).
Proof.
  assert (Hrow : forall k : ApiManagement.ApiKeyRecord,
            ApiManagement.row_html k = Shown.row_with k (masked (ApiManagement.api_key k))).
  { intros k. unfold ApiManagement.row_html, Shown.row_with.
    rewrite keyDisplay_first_and_last. reflexivity. }
  split; [apply Hrow|]. split; [|split; [|split]].
  - rewrite Hrow. unfold Shown.row_with, masked.
    rewrite ?append_assoc. find_within.
  - intros first middle last Hf Hl Hkey. rewrite Hrow. f_equal.
    unfold masked. rewrite Hkey.
    rewrite <- Hf at 1. rewrite substring_head.
    rewrite <- (append_assoc first middle last).
    replace (String.length ((first ++ middle) ++ last) - 4)%nat
      with (String.length (first ++ middle))
      by (rewrite (length_append (first ++ middle)), Hl; lia).
    rewrite <- Hl at 1. rewrite substring_tail. reflexivity.
  - intros secret. apply (Hrow (with_secret secret r)).
  - intros status keys p Hok. cbn [ApiManagement.fetchApiKeys]. rewrite Hok.
    cbn [ApiManagement.set_table ApiManagement.tableBody].
    apply List.map_ext. exact Hrow.
Qed.

Lemma table_row_masks_key_and_omits_secret_witness :
  ApiManagement.row_html sample_key = Shown.row_with sample_key ("AKIA" ++ "..." ++ "WXYZ").
Proof.
  exact (proj1 (proj2 (proj2 (table_row_masks_key_and_omits_secret sample_key)))
           "AKIA" "abcdefghijklmnop" "WXYZ" eq_refl eq_refl eq_refl).
Defined.

Example sample_row_shows_the_masked_key :
  Js.includes (ApiManagement.row_html sample_key) "<td>AKIA...WXYZ</td>" = true /\
  Js.includes (ApiManagement.row_html sample_key) "abcdefghijklmnop" = false /\
  Js.includes (ApiManagement.row_html sample_key) "s3cr3t" = false.
Proof. vm_compute. repeat split. Qed.

(** ** dashboard.js: refreshes whose rendering may throw *)

Lemma append_rendering_cards (items : list Dashboard.Item) :
  forall cards : list Dashboard.element,
    DashboardRefresh.append_cards (List.map DashboardRefresh.Renders items) cards
    = (app cards (List.map Dashboard.render_card items), None).
Proof.
  induction items as [|item rest IH]; intros cards; cbn.
  - now rewrite List.app_nil_r.
  - rewrite IH, <- List.app_assoc. reflexivity.
Qed.

(** On a well-formed response the refresh is that of [Dashboard]. *)
Lemma well_formed_refresh (r : Dashboard.fetched) (p : Dashboard.Page) :
  DashboardRefresh.fetchDashboardData (DashboardRefresh.well_formed r) p
  = Dashboard.fetchDashboardData r p.
Proof.
  destruct r as [reason|status [[items|]|]]; [reflexivity| | |];
    cbn [DashboardRefresh.well_formed option_map DashboardRefresh.fetchDashboardData
         Dashboard.fetchDashboardData];
    destruct (Dashboard.ok status); try reflexivity.
  unfold DashboardRefresh.renderStrategyCards, DashboardRefresh.build.
  destruct items as [|item rest]; [reflexivity|].
  change (List.map DashboardRefresh.Renders (item :: rest))
    with (DashboardRefresh.Renders item :: List.map DashboardRefresh.Renders rest).
  cbv iota.
  change (DashboardRefresh.Renders item :: List.map DashboardRefresh.Renders rest)
    with (List.map DashboardRefresh.Renders (item :: rest)).
  rewrite (append_rendering_cards (item :: rest) nil). reflexivity.
Qed.

Lemma card_of_render_card (item : Dashboard.Item) :
  Left.card_of item (Dashboard.render_card item).
Proof.
  exists (Dashboard.card_html item). split; [reflexivity|].
  unfold Dashboard.card_html. split; [find_within|].
  change "<p>Status: <strong id=" with ("<p>Status: " ++ "<strong id=").
  change "</strong> | Current Price: " with ("</strong>" ++ " | Current Price: ").
  rewrite ?append_assoc. find_within.
Qed.

Lemma appended_cards (items : list DashboardRefresh.rendering) :
  forall (done : list Dashboard.Item) (cards : list Dashboard.element),
    Forall2 Left.card_of done cards ->
    Forall2 Left.card_of (app done (DashboardRefresh.rendered_before items))
      (fst (DashboardRefresh.append_cards items cards)).
Proof.
  induction items as [|[item|reason] rest IH]; intros done cards Hdone; cbn.
  - now rewrite List.app_nil_r.
  - replace (app done (item :: DashboardRefresh.rendered_before rest))
      with (app (app done (item :: nil)) (DashboardRefresh.rendered_before rest))
      by (now rewrite <- List.app_assoc).
    apply IH. apply Forall2_app; [exact Hdone|].
    constructor; [apply card_of_render_card|constructor].
  - now rewrite List.app_nil_r.
Qed.

Lemma built_children (data : DashboardRefresh.strategies) :
  Left.by_renderer data (fst (DashboardRefresh.build data)).
Proof.
  destruct data as [|reason|[|x items]]; try reflexivity.
  exact (appended_cards (x :: items) nil nil (List.Forall2_nil _)).
Qed.

(** One refresh on a page that has the indicator. *)
Lemma refresh_with_indicator (r : DashboardRefresh.outcome) (p : Dashboard.Page) :
  Dashboard.loadingMessage p <> None ->
  let p' := DashboardRefresh.fetchDashboardData r p in
  Dashboard.container p'
  = match DashboardRefresh.reached r with
    | Some data => fst (DashboardRefresh.build data)
    | None => Dashboard.container p
    end /\
  List.length (Dashboard.console p')
  = (List.length (Dashboard.console p)
     + if DashboardRefresh.caught r then 1 else 0)%nat /\
  Dashboard.loadingMessage p'
  = if DashboardRefresh.caught r then Some "Error loading strategies."
    else Dashboard.loadingMessage p.
Proof.
  intros Hind.
  assert (Hcatch : forall d q,
            Dashboard.loadingMessage q <> None ->
            Dashboard.container (Dashboard.on_fetch_error d q) = Dashboard.container q /\
            List.length (Dashboard.console (Dashboard.on_fetch_error d q))
            = (List.length (Dashboard.console q) + 1)%nat /\
            Dashboard.loadingMessage (Dashboard.on_fetch_error d q)
            = Some "Error loading strategies.").
  { intros d q Hq. unfold Dashboard.on_fetch_error.
    destruct (Dashboard.loadingMessage q); [|contradiction].
    cbn. rewrite List.length_app. repeat split. }
  unfold DashboardRefresh.caught.
  destruct r as [reason|status [data|]]; cbn [DashboardRefresh.fetchDashboardData
    DashboardRefresh.reached]; cbv zeta.
  - apply Hcatch, Hind.
  - destruct (Dashboard.ok status); [|apply Hcatch, Hind].
    unfold DashboardRefresh.renderStrategyCards.
    destruct (snd (DashboardRefresh.build data)) as [thrown|].
    + destruct (Hcatch thrown
                  {| Dashboard.container := fst (DashboardRefresh.build data);
                     Dashboard.loadingMessage := Dashboard.loadingMessage p;
                     Dashboard.console := Dashboard.console p |} Hind)
        as (Hc & Hl & Hm).
      rewrite Hc, Hl, Hm. repeat split.
    + cbn. repeat split. lia.
  - destruct (Dashboard.ok status); apply Hcatch, Hind.
Qed.

(** X1. On a page that has the loading indicator, after any run of
    refreshes the container holds what the last refresh that reached the
    renderer left there: the invitation to add a strategy, or the cards
    of its items up to the first one whose rendering throws (all of them
    when none throws), each bearing its strategy's id and name, or
    nothing when [strategies_data] was no array.  Refreshes that fail
    before rendering (transport, status, unreadable body) change nothing
    in the container, whereas one that throws while rendering has already
    erased the cards shown before.  Every refresh that ends in the
    [catch] block logs one line, and once one has, the indicator reads
    "Error loading strategies.". *)
Theorem cards_survive_failed_refreshes
    (outcomes : list DashboardRefresh.outcome) (p : Dashboard.Page) :
  Dashboard.loadingMessage p <> None ->
  let p' := DashboardRefresh.poll outcomes p in
  match DashboardRefresh.last_reached outcomes with
  | Some data => Left.by_renderer data (Dashboard.container p')
  | None => Dashboard.container p' = Dashboard.container p
  end /\
  List.length (Dashboard.console p')
  = (List.length (Dashboard.console p) + Left.failures outcomes)%nat /\
  Dashboard.loadingMessage p'
  = match Left.failures outcomes with
    | O => Dashboard.loadingMessage p
    | S _ => Some "Error loading strategies."
    end.
Proof.
  cbv zeta. revert p. induction outcomes as [|r rest IH]; intros p Hind.
  - cbn. repeat split. lia.
  - change (DashboardRefresh.poll (r :: rest) p)
      with (DashboardRefresh.poll rest (DashboardRefresh.fetchDashboardData r p)).
    destruct (refresh_with_indicator r p Hind) as (Hc & Hl & Hm). cbv zeta in Hc, Hl, Hm.
    assert (Hind' : Dashboard.loadingMessage
                      (DashboardRefresh.fetchDashboardData r p) <> None).
    { rewrite Hm. destruct (DashboardRefresh.caught r); [discriminate|exact Hind]. }
    destruct (IH _ Hind') as (IHc & IHl & IHm).
    cbn [DashboardRefresh.last_reached]. unfold Left.failures in *.
    cbn [List.filter].
    split; [|split].
    + destruct (DashboardRefresh.last_reached rest) as [data|]; [exact IHc|].
      rewrite IHc, Hc.
      destruct (DashboardRefresh.reached r) as [data|]; [apply built_children|reflexivity].
    + rewrite IHl, Hl. destruct (DashboardRefresh.caught r); cbn [List.length]; lia.
    + rewrite IHm, Hm.
      destruct (DashboardRefresh.caught r); cbn [List.length];
        destruct (List.length (List.filter DashboardRefresh.caught rest)); reflexivity.
Qed.

Lemma cards_survive_failed_refreshes_witness :
  let p' := DashboardRefresh.poll broken_refreshes loading_page in
  Forall2 Left.card_of (sample_item :: nil) (Dashboard.container p') /\
  List.length (Dashboard.console p') = 2%nat /\
  Dashboard.loadingMessage p' = Some "Error loading strategies.".
Proof.
  exact (cards_survive_failed_refreshes broken_refreshes loading_page
           ltac:(discriminate)).
Defined.

Example throwing_item_erases_earlier_cards :
  Dashboard.container
    (DashboardRefresh.fetchDashboardData
       (DashboardRefresh.Response 200
          (Some (DashboardRefresh.Array (DashboardRefresh.Throws "no api_id" :: nil))))
       rendered_page_with_indicator)
  = nil.
Proof. reflexivity. Qed.
